(** * fetch_pip_metadata.pypi_proxy: the mitmproxy wrapper [PypiProxy]

    A shallow embedding of [pypi_proxy.py].  The class drives the operating
    system (a socket, a child process, the wall clock, HTTP requests and three
    files), so the embedding threads an explicit [World] through every call
    and returns Python exceptions as values. *)

From stdpp Require Import gmap strings list fin_maps pretty.

Open Scope Z_scope.

(** ** Text helpers *)

(** The path separator. *)
Definition slash : Ascii.ascii := Ascii.Ascii true true true true false true false false.

(** [str.split(sep)] for a one-character separator. *)
Fixpoint split_on (sep : Ascii.ascii) (s : string) : list string :=
  match s with
  | EmptyString => [EmptyString]
  | String c s' =>
      if decide (c = sep) then EmptyString :: split_on sep s'
      else match split_on sep s' with
           | [] => [String c EmptyString]
           | x :: xs => String c x :: xs
           end
  end.

(** [sep.join(l)]. *)
Fixpoint join_with (sep : string) (l : list string) : string :=
  match l with
  | [] => ""
  | [x] => x
  | x :: xs => x +:+ sep +:+ join_with sep xs
  end.

(** [s[i:]]. *)
Fixpoint drop_chars (n : nat) (s : string) : string :=
  match n, s with
  | O, _ => s
  | S n', String _ s' => drop_chars n' s'
  | S _, EmptyString => EmptyString
  end.

(** [s.startswith(p)]. *)
Fixpoint starts_with (p s : string) : bool :=
  match p, s with
  | EmptyString, _ => true
  | String a p', String b s' => bool_decide (a = b) && starts_with p' s'
  | String _ _, EmptyString => false
  end.

(** [str(n)] for a Python [int]. *)
Definition str (n : Z) : string := pretty n.

(** The characters [:], [#] and [>]. *)
Definition colon : Ascii.ascii := Ascii.ascii_of_nat 58.
Definition hash : Ascii.ascii := Ascii.ascii_of_nat 35.
Definition greater : Ascii.ascii := Ascii.ascii_of_nat 62.

(** [c.isspace()] for an ASCII character: tab to carriage return, the four
    separators and the space. *)
Definition is_space (c : Ascii.ascii) : bool :=
  let n := Ascii.nat_of_ascii c in
  (Nat.leb 9 n && Nat.leb n 13) || (Nat.leb 28 n && Nat.leb n 32).

(** [s.lstrip()], [s.rstrip()] and [s.strip()]. *)
Fixpoint lstrip (s : string) : string :=
  match s with
  | EmptyString => EmptyString
  | String c s' => if is_space c then lstrip s' else s
  end.

Fixpoint rstrip (s : string) : string :=
  match s with
  | EmptyString => EmptyString
  | String c s' =>
      match rstrip s' with
      | EmptyString => if is_space c then EmptyString else String c EmptyString
      | r => String c r
      end
  end.

Definition strip (s : string) : string := rstrip (lstrip s).

(** [s[-1:] == c]. *)
Fixpoint ends_with_char (c : Ascii.ascii) (s : string) : bool :=
  match s with
  | EmptyString => false
  | String x EmptyString => bool_decide (x = c)
  | String _ s' => ends_with_char c s'
  end.

(** [s[:-1]]. *)
Fixpoint drop_last (s : string) : string :=
  match s with
  | EmptyString => EmptyString
  | String _ EmptyString => EmptyString
  | String x s' => String x (drop_last s')
  end.

(** [s.rpartition(c)] when [c] occurs in [s]: what is before and what is
    after its last occurrence. *)
Fixpoint rpartition (c : Ascii.ascii) (s : string) : option (string * string) :=
  match s with
  | EmptyString => None
  | String x s' =>
      match rpartition c s' with
      | Some (before, after) => Some (String x before, after)
      | None => if bool_decide (x = c) then Some (EmptyString, s') else None
      end
  end.

(** [s.lower()] on ASCII letters. *)
Definition lower_char (c : Ascii.ascii) : Ascii.ascii :=
  let n := Ascii.nat_of_ascii c in
  if Nat.leb 65 n && Nat.leb n 90 then Ascii.ascii_of_nat (n + 32) else c.

Fixpoint lower (s : string) : string :=
  match s with
  | EmptyString => EmptyString
  | String c s' => String (lower_char c) (lower s')
  end.

(** ** [urllib]: what [Request(url)] makes of its url *)

(** [urllib.parse.unwrap]: white space, angle brackets and a leading
    [URL:] are taken off. *)
Definition unwrap (url : string) : string :=
  let url := strip url in
  let url := if starts_with "<" url && ends_with_char greater url
             then strip (drop_last (drop_chars 1 url)) else url in
  if starts_with "URL:" url then strip (drop_chars 4 url) else url.

(** [urllib.parse._splittag]: the url and its fragment, if it has one. *)
Definition splittag (url : string) : string * option string :=
  match rpartition hash url with
  | Some (path, tag) => (path, Some tag)
  | None => (url, None)
  end.

(** What is before and after the first colon of the url, when no slash
    comes before that colon. *)
Fixpoint before_colon (url : string) : option (string * string) :=
  match url with
  | EmptyString => None
  | String c url' =>
      if bool_decide (c = colon) then Some (EmptyString, url')
      else if bool_decide (c = slash) then None
      else match before_colon url' with
           | Some (scheme, data) => Some (String c scheme, data)
           | None => None
           end
  end.

(** [urllib.parse._splittype]: the scheme, in lower case, when the url
    starts with one or more characters other than [/] and [:] and then a
    colon. *)
Definition splittype (url : string) : option string * string :=
  match before_colon url with
  | Some (String c scheme, data) => (Some (lower (String c scheme)), data)
  | _ => (None, url)
  end.

(** The [type] a [Request] made from [url] has, [None] when the url has no
    scheme. *)
Definition url_type (url : string) : option string :=
  fst (splittype (fst (splittag (unwrap url)))).

(** The [full_url] of a [Request] made from [url]: the unwrapped url, with
    its fragment when that is not empty. *)
Definition request_full_url (url : string) : string :=
  match splittag (unwrap url) with
  | (path, Some (String c tag)) => path +:+ "#" +:+ String c tag
  | (path, _) => path
  end.

(** ** [pathlib.PurePosixPath]

    A path object is a root (empty, one slash, or two slashes) and the list
    of its components.  Parsing drops empty components and single dots and
    keeps double dots, as [pathlib] does; nothing is resolved against the
    file system. *)
Module Path.

Record t : Type := mk { root : string; parts : list string }.

(** [posixpath.splitroot]: exactly two leading slashes are kept, one or
    three and more collapse to one. *)
Definition splitroot (p : string) : string * string :=
  if negb (starts_with "/" p) then ("", p)
  else if negb (starts_with "//" p) || starts_with "///" p
       then ("/", drop_chars 1 p)
       else ("//", drop_chars 2 p).

Definition keep_part (x : string) : bool :=
  negb (bool_decide (x = "")) && negb (bool_decide (x = ".")).

(** [Path(s)]. *)
Definition parse (s : string) : t :=
  let '(r, rel) := splitroot s in
  mk r (filter (fun x => keep_part x = true) (split_on slash rel)).

(** [p / q]: an anchored right operand replaces the left one. *)
Definition join (p q : t) : t :=
  if bool_decide (root q = "") then mk (root p) (parts p ++ parts q)
  else q.

(** [p / s] for a string right operand. *)
Definition div (p : t) (s : string) : t := join p (parse s).

(** [str(p)], which is also [os.fspath(p)]. *)
Definition to_string (p : t) : string :=
  match root p, parts p with
  | EmptyString, [] => "."
  | r, l => r +:+ join_with "/" l
  end.

(** [p.is_absolute()]. *)
Definition is_absolute (p : t) : bool := negb (bool_decide (root p = "")).

End Path.

(** ** Exceptions

    The Python exception classes the module can meet.  [HTTPError] is a
    subclass of [URLError]; the others that [urlopen] lets through
    ([TimeoutError] and [RemoteDisconnected], raised while the response is
    read) are not. *)
Inductive exn : Type :=
| KeyError (key : string)
| FileNotFoundError (filename : string)
| PermissionError (filename : string)
| OSError (msg : string)
| ProcessLookupError
| URLError (reason : string)
| HTTPError (code : Z)
| TimeoutError
| RemoteDisconnected
| ValueError (msg : string).

(** [isinstance(e, urllib.error.URLError)]. *)
Definition is_URLError (e : exn) : bool :=
  match e with
  | URLError _ | HTTPError _ => true
  | _ => false
  end.

(** [isinstance(e, FileNotFoundError)]. *)
Definition is_FileNotFoundError (e : exn) : bool :=
  match e with
  | FileNotFoundError _ => true
  | _ => false
  end.

(** [isinstance(e, KeyError)]. *)
Definition is_KeyError (e : exn) : bool :=
  match e with
  | KeyError _ => true
  | _ => false
  end.

(** ** The world outside the interpreter *)

(** Where a child's output stream goes. *)
Inductive stream : Type := Inherited | StdErr.

(** What the kernel knows about a child. *)
Inductive pstatus : Type :=
| Running
| Zombie (code : Z)
| Reaped.

(** A child process together with its [subprocess.Popen] object: the
    command line and environment it was started with, its two output
    streams, its state in the kernel and the object's [returncode]. *)
Record Process : Type := mkProcess {
  argv : list string;
  penv : gmap string string;
  p_stdout : stream;
  p_stderr : stream;
  pstate : pstatus;
  returncode : option Z
}.

(** A [urllib.request.Request]: its [full_url] and the host and type given
    to [set_proxy], both empty while no proxy is set. *)
Record Request : Type := mkRequest {
  full_url : string;
  proxy_host : string;
  proxy_type : string
}.

(** How one call of [urlopen] ends. *)
Inductive reply : Type :=
| Response (status_code : Z)
| Raises (e : exn).

(** One call of [urlopen]: the wall-clock time it takes and how it ends. *)
Record Attempt : Type := mkAttempt { took : Z; outcome : reply }.

(** The signal [Popen.kill] sends. *)
Inductive signal : Type := SIGKILL.

(** What the program does to the world, in order. *)
Inductive event : Type :=
| EvBind (port : Z)
| EvCloseSocket
| EvSpawn (pid : nat)
| EvUrlopen (req : Request) (timeout : Z)
| EvSleep (secs : Z)
| EvRead (file : string)
| EvTruncate (file : string)
| EvWrite (file : string) (text : string)
| EvSignal (pid : nat) (sig : signal).

(** The parts of the environment the program only consults.
    - [realpath] names the file a path string denotes;
    - [open_w_error] is the error, if any, of opening that file for writing;
    - [certifi_where] is the value of [certifi.where()];
    - [spawn_error] is the error, if any, of starting a command line;
    - [net k] is the [k]-th call of [urlopen];
    - [jitter k] is what the [k]-th call of [time.sleep] adds to (or, when
      the wall clock is set back, takes from) the time asked for. *)
Record OS : Type := mkOS {
  realpath : string → string;
  open_w_error : string → option exn;
  certifi_where : string;
  spawn_error : list string → gmap string string → option exn;
  net : nat → Attempt;
  jitter : nat → Z
}.

(** The state of the world.  Files are held as the text a text-mode
    [read()] returns; [now] is [time.time()] in clock ticks; [ephemeral]
    lists the ports the kernel hands out to the next binds to port 0. *)
Record World : Type := mkWorld {
  os : OS;
  now : Z;
  files : gmap string string;
  ephemeral : list Z;
  procs : list Process;
  polls : nat;
  sleeps : nat;
  trace : list event
}.

(** Clock ticks per second. *)
Definition second : Z := 1000000000.

Definition set_now (t : Z) (w : World) : World :=
  mkWorld (os w) t (files w) (ephemeral w) (procs w) (polls w) (sleeps w) (trace w).
Definition set_files (f : gmap string string) (w : World) : World :=
  mkWorld (os w) (now w) f (ephemeral w) (procs w) (polls w) (sleeps w) (trace w).
Definition set_ephemeral (l : list Z) (w : World) : World :=
  mkWorld (os w) (now w) (files w) l (procs w) (polls w) (sleeps w) (trace w).
Definition set_procs (l : list Process) (w : World) : World :=
  mkWorld (os w) (now w) (files w) (ephemeral w) l (polls w) (sleeps w) (trace w).
Definition set_polls (n : nat) (w : World) : World :=
  mkWorld (os w) (now w) (files w) (ephemeral w) (procs w) n (sleeps w) (trace w).
Definition set_sleeps (n : nat) (w : World) : World :=
  mkWorld (os w) (now w) (files w) (ephemeral w) (procs w) (polls w) n (trace w).
Definition log (e : event) (w : World) : World :=
  mkWorld (os w) (now w) (files w) (ephemeral w) (procs w) (polls w) (sleeps w)
          (trace w ++ [e]).

(** ** Computations

    A call either returns a value, raises, or (for the polling loop run on
    bounded fuel) is still running when the fuel is spent.  Each outcome
    carries the world it has reached: what was done before an exception
    stays done. *)
Inductive Outcome (A : Type) : Type :=
| Ok (a : A) (w : World)
| Raise (e : exn) (w : World)
| OutOfFuel (w : World).
Arguments Ok {A} a w.
Arguments Raise {A} e w.
Arguments OutOfFuel {A} w.

Definition world_of {A} (r : Outcome A) : World :=
  match r with
  | Ok _ w | Raise _ w | OutOfFuel w => w
  end.

Definition M (A : Type) : Type := World → Outcome A.

Definition ret {A} (a : A) : M A := fun w => Ok a w.
Definition raise {A} (e : exn) : M A := fun w => Raise e w.
Definition bind {A B} (m : M A) (k : A → M B) : M B :=
  fun w => match m w with
           | Ok a w' => k a w'
           | Raise e w' => Raise e w'
           | OutOfFuel w' => OutOfFuel w'
           end.

Declare Scope py_scope.
Delimit Scope py_scope with py.
Notation "x <- m ;; k" := (bind m (fun x => k))
  (at level 100, m at next level, right associativity) : py_scope.
Notation "m ;; k" := (bind m (fun _ => k))
  (at level 100, right associativity) : py_scope.
Open Scope py_scope.

(** [try: m except <classes>: h]. *)
Definition try_except {A} (m : M A) (caught : exn → bool) (h : M A) : M A :=
  fun w => match m w with
           | Raise e w' => if caught e then h w' else Raise e w'
           | r => r
           end.

(** [try: m finally: fin].  The [finally] suite runs whether [m] returned
    or raised; what [m] did (value, exception, or a pending [break] carried
    in the value) takes effect only after it. *)
Definition try_finally {A} (m : M A) (fin : M unit) : M A :=
  fun w => match m w with
           | Ok a w' => (fin ;; ret a) w'
           | Raise e w' => (fin ;; raise e) w'
           | OutOfFuel w' => OutOfFuel w'
           end.

(** Read and change the world. *)
Definition get : M World := fun w => Ok w w.
Definition modify (f : World → World) : M unit := fun w => Ok tt (f w).

(** ** The library calls the module makes *)

(** The one-character text ["\n"]. *)
Definition newline : string :=
  String (Ascii.Ascii false true false true false false false false) "".

(** [d[key]] on a [dict]. *)
Definition dict_get (d : gmap string string) (key : string) : M string :=
  match d !! key with
  | Some v => ret v
  | None => raise (KeyError key)
  end.

(** [time.time()]. *)
Definition time_time : M Z := fun w => Ok (now w) w.

(** [time.sleep(secs)]: the [k]-th sleep moves the clock by the time asked
    for and [jitter k]. *)
Definition time_sleep (secs : Z) : M unit :=
  fun w =>
    Ok tt (log (EvSleep secs)
             (set_sleeps (S (sleeps w))
                (set_now (now w + secs * second + jitter (os w) (sleeps w)) w))).

(** [urllib.request.Request(url)]: a url without a scheme is refused. *)
Definition Request_new (url : string) : M Request :=
  match url_type url with
  | Some _ => ret (mkRequest (request_full_url url) "" "")
  | None => raise (ValueError ("unknown url type: " +:+ request_full_url url))
  end.

(** [req.set_proxy(host, type)]. *)
Definition set_proxy (req : Request) (host type : string) : Request :=
  mkRequest (full_url req) host type.

(** The object [urlopen] returns; only its [status] is looked at. *)
Record HTTPResponse : Type := mkResponse { status : Z }.

(** [urllib.request.urlopen(req, None, timeout)]: the [k]-th call takes
    [took (net k)] and ends as [outcome (net k)] says. *)
Definition urlopen (req : Request) (timeout : Z) : M HTTPResponse :=
  fun w =>
    let a := net (os w) (polls w) in
    let w' := log (EvUrlopen req timeout)
                (set_polls (S (polls w)) (set_now (now w + took a) w)) in
    match outcome a with
    | Response st => Ok (mkResponse st) w'
    | Raises e => Raise e w'
    end.

(** [sock = socket.socket(AF_INET, SOCK_STREAM); sock.bind(("", 0))] and
    [sock.getsockname()[1]]: the kernel picks the port. *)
Definition socket_bind_any : M Z :=
  fun w =>
    match ephemeral w with
    | [] => Raise (OSError "no ephemeral port") w
    | p :: rest => Ok p (log (EvBind p) (set_ephemeral rest w))
    end.

(** [sock.close()]. *)
Definition socket_close : M unit := modify (log EvCloseSocket).

(** [with open(path, "r") as f: f.read()]. *)
Definition read_text (path : string) : M string :=
  fun w =>
    match files w !! realpath (os w) path with
    | Some text => Ok text (log (EvRead path) w)
    | None => Raise (FileNotFoundError path) w
    end.

(** [open(path, "w")]: the file is created or emptied at once.  The value
    returned stands for the file object. *)
Definition open_w (path : string) : M string :=
  fun w =>
    let f := realpath (os w) path in
    match open_w_error (os w) f with
    | Some e => Raise e w
    | None => Ok f (log (EvTruncate path) (set_files (<[f := ""]> (files w)) w))
    end.

(** [f.write(text)] on a file opened by [open_w]. *)
Definition write (f : string) (text : string) : M unit :=
  fun w =>
    Ok tt (log (EvWrite f text)
             (set_files (<[f := default "" (files w !! f) +:+ text]> (files w)) w)).

(** [subprocess.Popen(argv, stdout=out, stderr=err, env=env)]; the value
    returned stands for the [Popen] object. *)
Definition Popen (args : list string) (out err : stream)
    (env : gmap string string) : M nat :=
  fun w =>
    match spawn_error (os w) args env with
    | Some e => Raise e w
    | None =>
        let pid := length (procs w) in
        Ok pid (log (EvSpawn pid)
                  (set_procs (procs w ++ [mkProcess args env out err Running None]) w))
    end.

Definition with_pstate (s : pstatus) (p : Process) : Process :=
  mkProcess (argv p) (penv p) (p_stdout p) (p_stderr p) s (returncode p).
Definition with_returncode (c : Z) (p : Process) : Process :=
  mkProcess (argv p) (penv p) (p_stdout p) (p_stderr p) (pstate p) (Some c).

(** [Popen.poll()]: a non-blocking [waitpid] unless the return code is
    known already.  A child that someone else reaped counts as exited with
    code 0. *)
Definition Popen_poll (pid : nat) : M (option Z) :=
  fun w =>
    match procs w !! pid with
    | None => Ok None w
    | Some p =>
        match returncode p, pstate p with
        | Some c, _ => Ok (Some c) w
        | None, Running => Ok None w
        | None, Zombie c =>
            Ok (Some c)
               (set_procs (<[pid := with_returncode c (with_pstate Reaped p)]> (procs w)) w)
        | None, Reaped =>
            Ok (Some 0) (set_procs (<[pid := with_returncode 0 p]> (procs w)) w)
        end
    end.

(** [os.kill(pid, SIGKILL)]: a running child is terminated (it stays a
    zombie until it is waited for); a child that is gone is an error. *)
Definition os_kill (pid : nat) (sig : signal) : M unit :=
  fun w =>
    match procs w !! pid with
    | None => Raise ProcessLookupError w
    | Some p =>
        match pstate p with
        | Running =>
            Ok tt (log (EvSignal pid sig)
                     (set_procs (<[pid := with_pstate (Zombie (-9)) p]> (procs w)) w))
        | Zombie _ => Ok tt (log (EvSignal pid sig) w)
        | Reaped => Raise ProcessLookupError w
        end
    end.

Definition is_ProcessLookupError (e : exn) : bool :=
  match e with
  | ProcessLookupError => true
  | _ => false
  end.

(** [Popen.kill()], that is [send_signal(SIGKILL)]: nothing is sent to a
    child known to have exited, and losing the race with its exit is not an
    error. *)
Definition Popen_kill (pid : nat) : M unit :=
  rc <- Popen_poll pid ;;
  match rc with
  | Some _ => ret tt
  | None => try_except (os_kill pid SIGKILL) is_ProcessLookupError (ret tt)
  end.

(** ** class PypiProxy *)
Module PypiProxy.

(** The attributes of an instance. *)
Record t : Type := mk {
  env : gmap string string;
  port : Z;
  proc : nat;
  cafile : Path.t
}.

Definition find_free_port : M Z :=
  port <- socket_bind_any ;;
  socket_close ;;
  ret port.

(** The [while] loop of [wait].  The body yields [true] for [break]; one
    unit of fuel pays for one test of the loop condition. *)
Fixpoint wait_loop (fuel : nat) (req : Request) (timeout : Z) : M unit :=
  match fuel with
  | O => fun w => OutOfFuel w
  | S fuel' =>
      t <- time_time ;;
      if bool_decide (t < timeout) then
        brk <- try_finally
                 (try_except
                    (res <- urlopen req 5 ;;
                     if bool_decide (status res < 400) then ret true else ret false)
                    is_URLError
                    (ret false))
                 (time_sleep 1) ;;
        if brk : bool then ret tt else wait_loop fuel' req timeout
      else ret tt
  end.

Definition wait (fuel : nat) (self_port : Z) (test_url : string) (timeout : Z)
    : M unit :=
  t <- time_time ;;
  let timeout := t + timeout * second in
  req <- Request_new test_url ;;
  let req := set_proxy req ("127.0.0.1:" +:+ str self_port) "http" in
  wait_loop fuel req timeout.

Definition generate_ca_bundle (self_env : gmap string string) (path : string)
    : M Path.t :=
  home_dir <- dict_get self_env "HOME" ;;
  let home := Path.parse home_dir in
  let path := Path.div home path in
  mitmproxy_cacert <-
    read_text (Path.to_string (Path.div home ".mitmproxy/mitmproxy-ca-cert.pem")) ;;
  w <- get ;;
  certifi_cacert <- read_text (certifi_where (os w)) ;;
  f <- open_w (Path.to_string path) ;;
  write f mitmproxy_cacert ;;
  write f newline ;;
  write f certifi_cacert ;;
  ret path.

Definition __init__ (fuel : nat) (executable : string) (args : list string)
    (env : gmap string string) : M t :=
  port <- find_free_port ;;
  proc <- Popen ([executable; "--listen-port"; str port; "--anticache"] ++ args)
                StdErr StdErr env ;;
  wait fuel port "http://pypi.org" 10 ;;
  cafile <- generate_ca_bundle env ".ca-cert.pem" ;;
  ret (mk env port proc cafile).

Definition kill (self : t) : M unit := Popen_kill (proc self).

End PypiProxy.

(** ** Concrete worlds

    A build with home directory [/build]: the proxy has written its CA
    certificate, [certifi] ships its bundle, the kernel's next free port is
    40123, and the proxy answers on the third request. *)
Module Demo.

Definition refused : Attempt :=
  mkAttempt 0 (Raises (URLError "Connection refused")).

Definition answers_third (k : nat) : Attempt :=
  if bool_decide (k < 2)%nat then refused else mkAttempt 1000000 (Response 200).

Definition never_answers (_ : nat) : Attempt := refused.

Definition system : OS :=
  mkOS (fun p => p) (fun _ => None) "/nix/store/certifi/cacert.pem"
       (fun _ _ => None) answers_third (fun _ => 0).

Definition deaf_system : OS :=
  mkOS (fun p => p) (fun _ => None) "/nix/store/certifi/cacert.pem"
       (fun _ _ => None) never_answers (fun _ => 0).

Definition disk : gmap string string :=
  <["/build/.mitmproxy/mitmproxy-ca-cert.pem" := "MITM"]>
    (<["/nix/store/certifi/cacert.pem" := "CERTIFI"]>
       (<["/build/.ca-cert.pem" := "STALE BUNDLE OF AN EARLIER RUN"]> ∅)).

Definition world : World :=
  mkWorld system (1700000000 * second) disk [40123] [] 0 0 [].

Definition deaf_world : World :=
  mkWorld deaf_system (1700000000 * second) disk [40123] [] 0 0 [].

Definition env : gmap string string :=
  <["HOME" := "/build"]> (<["PATH" := "/bin"]> ∅).

Definition args : list string := ["--ignore-hosts"; "files.pythonhosted.org"].

(** The same build before the proxy has ever written its certificate. *)
Definition fresh_disk : gmap string string :=
  delete "/build/.mitmproxy/mitmproxy-ca-cert.pem" disk.

Definition fresh_world : World :=
  mkWorld system (1700000000 * second) fresh_disk [40123] [] 0 0 [].

(** An environment without a home directory. *)
Definition homeless_env : gmap string string := <["PATH" := "/bin"]> ∅.

(** A home directory given relative to the working directory. *)
Definition relative_env : gmap string string := <["HOME" := "build"]> ∅.

Definition relative_disk : gmap string string :=
  <["build/.mitmproxy/mitmproxy-ca-cert.pem" := "MITM"]>
    (<["/nix/store/certifi/cacert.pem" := "CERTIFI"]> ∅).

Definition relative_world : World :=
  mkWorld system (1700000000 * second) relative_disk [40123] [] 0 0 [].

(** A proxy that accepts the connection and then says nothing: the read
    of the response times out after five seconds. *)
Definition mute (_ : nat) : Attempt := mkAttempt (5 * second) (Raises TimeoutError).

Definition mute_system : OS :=
  mkOS (fun p => p) (fun _ => None) "/nix/store/certifi/cacert.pem"
       (fun _ _ => None) mute (fun _ => 0).

Definition mute_world : World :=
  mkWorld mute_system (1700000000 * second) disk [40123] [] 0 0 [].

(** A wall clock that is set back by a second during every sleep. *)
Definition stuck_system : OS :=
  mkOS (fun p => p) (fun _ => None) "/nix/store/certifi/cacert.pem"
       (fun _ _ => None) never_answers (fun _ => - second).

Definition stuck_world : World :=
  mkWorld stuck_system (1700000000 * second) disk [40123] [] 0 0 [].

(** A proxy that is up at once. *)
Definition eager (_ : nat) : Attempt := mkAttempt 1000000 (Response 200).

Definition eager_system : OS :=
  mkOS (fun p => p) (fun _ => None) "/nix/store/certifi/cacert.pem"
       (fun _ _ => None) eager (fun _ => 0).

Definition eager_world : World :=
  mkWorld eager_system (1700000000 * second) disk [40123] [] 0 0 [].

(** An instance whose child is running, in a world that has just it. *)
Definition handle : PypiProxy.t :=
  PypiProxy.mk env 40123 0 (Path.mk "/" ["build"; ".ca-cert.pem"]).

(** A kernel with no port left. *)
Definition exhausted_world : World :=
  mkWorld system (1700000000 * second) disk [] [] 0 0 [].

(** A machine without the proxy's executable. *)
Definition no_binary_system : OS :=
  mkOS (fun p => p) (fun _ => None) "/nix/store/certifi/cacert.pem"
       (fun argv _ => Some (FileNotFoundError (default "" (head argv))))
       answers_third (fun _ => 0).

Definition no_binary_world : World :=
  mkWorld no_binary_system (1700000000 * second) disk [40123] [] 0 0 [].

(** A file system on which nothing can be opened for writing. *)
Definition readonly_system : OS :=
  mkOS (fun p => p) (fun f => Some (PermissionError f))
       "/nix/store/certifi/cacert.pem" (fun _ _ => None) answers_third (fun _ => 0).

Definition readonly_world : World :=
  mkWorld readonly_system (1700000000 * second) disk [40123] [] 0 0 [].

(** A build in which [certifi] has lost its bundle. *)
Definition bare_disk : gmap string string :=
  delete "/nix/store/certifi/cacert.pem" disk.

Definition bare_world : World :=
  mkWorld system (1700000000 * second) bare_disk [40123] [] 0 0 [].




End Demo.

(** ** Vocabulary of the statements *)

(** The world after the [k]-th [urlopen], however it ends. *)
Definition after_urlopen (req : Request) (timeout : Z) (w : World) : World :=
  log (EvUrlopen req timeout)
    (set_polls (S (polls w)) (set_now (now w + took (net (os w) (polls w))) w)).

(** The world after a [time.sleep(secs)]. *)
Definition after_sleep (secs : Z) (w : World) : World :=
  log (EvSleep secs)
    (set_sleeps (S (sleeps w))
       (set_now (now w + secs * second + jitter (os w) (sleeps w)) w)).

(** The world after one turn of the polling loop: a request with a
    five-second timeout, then a one-second sleep. *)
Definition poll_world (req : Request) (w : World) : World :=
  after_sleep 1 (after_urlopen req 5 w).

(** What one turn of the polling loop adds to the trace. *)
Definition poll_events (req : Request) : list event := [EvUrlopen req 5; EvSleep 1].

(** The request [wait] builds. *)
Definition probe (port : Z) (test_url : string) : Request :=
  mkRequest (request_full_url test_url) ("127.0.0.1:" +:+ str port) "http".

(** Every turn of the loop, from this world on, moves the clock by at least
    the second slept: the request and the sleep's jitter together take no
    time away. *)
Definition steady (w : World) : Prop :=
  ∀ i : nat, (0 ≤ took (net (os w) (polls w + i)) + jitter (os w) (sleeps w + i))%Z.

(** An end of [urlopen] that the loop lives through: a response, or an
    exception of class [URLError]. *)
Definition swallowed (r : reply) : Prop :=
  match r with
  | Response _ => True
  | Raises e => is_URLError e = true
  end.

(** Every request, from this world on, gets a response or fails with a
    [URLError]. *)
Definition benign (w : World) : Prop :=
  ∀ i : nat, swallowed (outcome (net (os w) (polls w + i))).

(** The command line of the child. *)
Definition command_line (executable : string) (port : Z) (args : list string)
    : list string :=
  [executable; "--listen-port"; str port; "--anticache"] ++ args.

(** The [Popen] object right after the child was started. *)
Definition child (executable : string) (port : Z) (args : list string)
    (env : gmap string string) : Process :=
  mkProcess (command_line executable port args) env StdErr StdErr Running None.

(** The three files of [generate_ca_bundle], as the strings given to [open]. *)
Definition proxy_ca_file (home : string) : string :=
  Path.to_string (Path.div (Path.parse home) ".mitmproxy/mitmproxy-ca-cert.pem").
Definition bundle_path (home path : string) : Path.t :=
  Path.div (Path.parse home) path.
Definition bundle_file (home path : string) : string :=
  Path.to_string (bundle_path home path).

(** The [Popen] object says the child is still there to be signalled. *)
Definition signallable (p : Process) : bool :=
  match returncode p, pstate p with
  | None, Running => true
  | _, _ => false
  end.

(** How the polling loop, started in [w], has come to a halt after [k]
    turns: the deadline has passed, the last request was answered with a
    status below 400, or the last request raised something that is not a
    [URLError]. *)
Inductive halted (req : Request) (deadline : Z) (w : World)
    : nat → Outcome unit → Prop :=
| halted_deadline (k : nat) :
    deadline ≤ now (Nat.iter k (poll_world req) w) →
    halted req deadline w k (Ok tt (Nat.iter k (poll_world req) w))
| halted_break (j : nat) (st : Z) :
    outcome (net (os w) (polls w + j)) = Response st →
    st < 400 →
    halted req deadline w (S j) (Ok tt (Nat.iter (S j) (poll_world req) w))
| halted_raise (j : nat) (e : exn) :
    outcome (net (os w) (polls w + j)) = Raises e →
    is_URLError e = false →
    halted req deadline w (S j) (Raise e (Nat.iter (S j) (poll_world req) w)).

(** The world once the port is found and the child is started. *)
Definition launched (executable : string) (args : list string)
    (env : gmap string string) (port : Z) (w : World) : World :=
  let w1 := log EvCloseSocket (log (EvBind port) (set_ephemeral (tail (ephemeral w)) w)) in
  log (EvSpawn (length (procs w1)))
    (set_procs (procs w1 ++ [child executable port args env]) w1).

(** What [generate_ca_bundle] adds to the trace when it succeeds. *)
Definition bundle_events (o : OS) (home path a b : string) : list event :=
  [EvRead (proxy_ca_file home); EvRead (certifi_where o);
   EvTruncate (bundle_file home path);
   EvWrite (realpath o (bundle_file home path)) a;
   EvWrite (realpath o (bundle_file home path)) newline;
   EvWrite (realpath o (bundle_file home path)) b].

(** The world once the child is started and the loop has made [k] turns. *)
Definition polled (executable : string) (args : list string)
    (env : gmap string string) (port : Z) (k : nat) (w : World) : World :=
  Nat.iter k (poll_world (probe port "http://pypi.org"))
    (launched executable args env port w).

(** The time [k] turns of the loop take, the first of them making request
    number [p] and sleep number [s]. *)
Fixpoint turns_take (o : OS) (p s k : nat) : Z :=
  match k with
  | O => 0
  | S k' => took (net o p) + 1 * second + jitter o s + turns_take o (S p) (S s) k'
  end.

(** What the constructor does once the loop is over. *)
Definition finish (env : gmap string string) (port : Z) (pid : nat)
    : M PypiProxy.t :=
  cafile <- PypiProxy.generate_ca_bundle env ".ca-cert.pem" ;;
  ret (PypiProxy.mk env port pid cafile).

(** The signal a call of [kill] sends in world [w], if any. *)
Definition kill_events (self : PypiProxy.t) (w : World) : list event :=
  match procs w !! PypiProxy.proc self with
  | Some p => if signallable p then [EvSignal (PypiProxy.proc self) SIGKILL] else []
  | None => []
  end.


(** ** The path and text helpers on examples *)

Example parse_home : Path.to_string (Path.parse "/build//home/") = "/build/home".
Proof. reflexivity. Qed.

Example parse_two_slashes : Path.to_string (Path.parse "//tmp/./x") = "//tmp/x".
Proof. reflexivity. Qed.

Example parse_three_slashes : Path.to_string (Path.parse "///tmp/../x") = "/tmp/../x".
Proof. reflexivity. Qed.

Example parse_empty : Path.to_string (Path.parse "") = ".".
Proof. reflexivity. Qed.

Example div_relative :
  Path.to_string (Path.div (Path.parse "/build") ".mitmproxy/mitmproxy-ca-cert.pem")
  = "/build/.mitmproxy/mitmproxy-ca-cert.pem".
Proof. reflexivity. Qed.

Example div_anchored : Path.to_string (Path.div (Path.parse "/build") "/etc/x") = "/etc/x".
Proof. reflexivity. Qed.

Example str_port : str 8080 = "8080".
Proof. reflexivity. Qed.

Example url_type_http : url_type "http://pypi.org" = Some "http".
Proof. reflexivity. Qed.

Example url_type_wrapped : url_type " <URL:HTTPS://pypi.org/simple#top> " = Some "https".
Proof. reflexivity. Qed.

Example url_type_bare_host : url_type "pypi.org" = None.
Proof. reflexivity. Qed.

Example url_type_path : url_type "/simple/a:b" = None.
Proof. reflexivity. Qed.

Example url_type_empty_scheme : url_type "://pypi.org" = None.
Proof. reflexivity. Qed.

Example full_url_wrapped :
  request_full_url " <URL:HTTPS://pypi.org/simple#top> " = "HTTPS://pypi.org/simple#top".
Proof. reflexivity. Qed.

Example full_url_empty_fragment : request_full_url "http://pypi.org/#" = "http://pypi.org/".
Proof. reflexivity. Qed.

(** ** The constructor on examples *)

(** The proxy answers the third request: three requests, three sleeps, and
    the bundle of the earlier run is replaced. *)
Example init_answered_third :
  let r := PypiProxy.__init__ 11 "mitmdump" Demo.args Demo.env Demo.world in
  polls (world_of r) = 3%nat ∧ sleeps (world_of r) = 3%nat ∧
  now (world_of r) = now Demo.world + 3 * second + 1000000 ∧
  files (world_of r) !! "/build/.ca-cert.pem" = Some ("MITM" +:+ newline +:+ "CERTIFI").
Proof. vm_compute. done. Qed.

(** The proxy never answers: ten requests in ten seconds, and the eleventh
    test of the loop condition ends the loop. *)
Example init_never_answered :
  let r := PypiProxy.__init__ 11 "mitmdump" Demo.args Demo.env Demo.deaf_world in
  polls (world_of r) = 10%nat ∧ sleeps (world_of r) = 10%nat ∧
  now (world_of r) = now Demo.deaf_world + 10 * second ∧
  files (world_of r) !! "/build/.ca-cert.pem" = Some ("MITM" +:+ newline +:+ "CERTIFI").
Proof. vm_compute. done. Qed.

(** Ten units of fuel pay for ten tests of the condition and are not enough
    for that run. *)
Example wait_needs_eleven_tests :
  PypiProxy.wait 10 40123 "http://pypi.org" 10 Demo.deaf_world
  = OutOfFuel (Nat.iter 10 (poll_world (probe 40123 "http://pypi.org")) Demo.deaf_world).
Proof. vm_compute. reflexivity. Qed.

(** ** The polling loop, one turn at a time *)

Section Loop.

Variable req : Request.
Variable deadline : Z.

(** Past the deadline the loop stops at its next test, whatever happened
    before. *)
Lemma wait_loop_exit (fuel : nat) (w : World) :
  (deadline ≤ now w)%Z →
  PypiProxy.wait_loop (S fuel) req deadline w = Ok tt w.
Proof.
  intros Hlate. cbn [PypiProxy.wait_loop]. unfold bind at 1, time_time.
  rewrite bool_decide_eq_false_2 by lia. reflexivity.
Qed.

(** Before the deadline the loop makes one request and sleeps, then
    leaves, goes round again, or lets the exception through. *)
Lemma wait_loop_turn (fuel : nat) (w : World) :
  (now w < deadline)%Z →
  PypiProxy.wait_loop (S fuel) req deadline w =
    match outcome (net (os w) (polls w)) with
    | Response st =>
        if bool_decide (st < 400)%Z then Ok tt (poll_world req w)
        else PypiProxy.wait_loop fuel req deadline (poll_world req w)
    | Raises e =>
        if is_URLError e
        then PypiProxy.wait_loop fuel req deadline (poll_world req w)
        else Raise e (poll_world req w)
    end.
Proof.
  intros Hearly. cbn [PypiProxy.wait_loop]. unfold bind at 1, time_time.
  rewrite bool_decide_eq_true_2 by lia.
  unfold bind, try_finally, try_except, urlopen, time_sleep, ret, raise.
  fold (after_urlopen req 5 w).
  destruct (outcome (net (os w) (polls w))) as [st|e].
  - cbn [status]. destruct (bool_decide (st < 400)%Z); reflexivity.
  - destruct (is_URLError e); reflexivity.
Qed.

(** What one turn of the loop leaves untouched, and what it adds. *)
Lemma poll_frame (w : World) :
  os (poll_world req w) = os w ∧ files (poll_world req w) = files w ∧
  ephemeral (poll_world req w) = ephemeral w ∧
  procs (poll_world req w) = procs w ∧ polls (poll_world req w) = S (polls w) ∧
  sleeps (poll_world req w) = S (sleeps w) ∧
  trace (poll_world req w) = trace w ++ poll_events req.
Proof. cbn. rewrite <- app_assoc. done. Qed.

Lemma poll_clock (w : World) :
  now (poll_world req w)
  = (now w + took (net (os w) (polls w)) + 1 * second + jitter (os w) (sleeps w))%Z.
Proof. reflexivity. Qed.

(** The same for [k] turns. *)
Lemma polls_frame (k : nat) (w : World) :
  let w' := Nat.iter k (poll_world req) w in
  os w' = os w ∧ files w' = files w ∧ ephemeral w' = ephemeral w ∧
  procs w' = procs w ∧ polls w' = (polls w + k)%nat ∧
  sleeps w' = (sleeps w + k)%nat.
Proof.
  induction k as [|k IH]; cbn zeta in *.
  - rewrite !Nat.add_0_r. done.
  - rewrite Nat.iter_succ. destruct IH as (Hos & Hf & He & Hp & Hn & Hs).
    destruct (poll_frame (Nat.iter k (poll_world req) w))
      as (Hos' & Hf' & He' & Hp' & Hn' & Hs' & _).
    rewrite Hos', Hf', He', Hp', Hn', Hs', Hn, Hs, !Nat.add_succ_r. done.
Qed.

Lemma poll_events_commute (k : nat) :
  mjoin (replicate k (poll_events req)) ++ poll_events req
  = poll_events req ++ mjoin (replicate k (poll_events req)).
Proof.
  generalize (poll_events req). intros l.
  induction k as [|k IH]; [by rewrite app_nil_r|].
  change (mjoin (replicate (S k) l)) with (l ++ mjoin (replicate k l)).
  rewrite <- app_assoc, IH. reflexivity.
Qed.

(** Every request is directly followed by a sleep. *)
Lemma polls_trace (k : nat) (w : World) :
  trace (Nat.iter k (poll_world req) w)
  = trace w ++ mjoin (replicate k (poll_events req)).
Proof.
  induction k as [|k IH].
  - cbn. by rewrite app_nil_r.
  - rewrite Nat.iter_succ.
    destruct (poll_frame (Nat.iter k (poll_world req) w)) as (_&_&_&_&_&_&Ht).
    rewrite Ht, IH.
    change (replicate (S k) (poll_events req))
      with (poll_events req :: replicate k (poll_events req)).
    cbn [mjoin list_join]. rewrite <- app_assoc, poll_events_commute.
    reflexivity.
Qed.

End Loop.

Section LoopRuns.

Variable req : Request.
Variable deadline : Z.

Lemma steady_poll (w : World) : steady w → steady (poll_world req w).
Proof.
  intros H i. specialize (H (S i)).
  destruct (poll_frame req w) as (-> & _ & _ & _ & -> & -> & _).
  by rewrite <- !Nat.add_succ_comm in H.
Qed.

Lemma benign_poll (w : World) : benign w → benign (poll_world req w).
Proof.
  intros H i. specialize (H (S i)).
  destruct (poll_frame req w) as (-> & _ & _ & _ & -> & _).
  by rewrite <- !Nat.add_succ_comm in H.
Qed.

Lemma poll_advances (w : World) :
  steady w → now w + second ≤ now (poll_world req w).
Proof.
  intros H. specialize (H 0%nat). rewrite !Nat.add_0_r in H.
  rewrite poll_clock. lia.
Qed.

(** A halt of the loop started one turn later is a halt of the loop
    started now. *)
Lemma halted_shift (w : World) (k : nat) (r : Outcome unit) :
  halted req deadline (poll_world req w) k r → halted req deadline w (S k) r.
Proof.
  destruct (poll_frame req w) as (Hos & _ & _ & _ & Hn & _).
  intros H. inversion H as [k' Hd|j st Ho Hst|j e Ho He]; subst.
  - rewrite <- Nat.iter_succ_r. apply halted_deadline.
    by rewrite Nat.iter_succ_r.
  - rewrite <- Nat.iter_succ_r. apply (halted_break _ _ _ (S j) st); [|done].
    by rewrite Hos, Hn, Nat.add_succ_comm in Ho.
  - rewrite <- Nat.iter_succ_r. apply (halted_raise _ _ _ (S j) e); [|done].
    by rewrite Hos, Hn, Nat.add_succ_comm in Ho.
Qed.

(** With the clock moving by a second a turn, a loop that has at most [n]
    seconds to go halts within [n] turns, on [n + 1] units of fuel. *)
Lemma wait_loop_halts (n : nat) :
  ∀ (fuel : nat) (w : World),
    steady w →
    deadline - now w ≤ Z.of_nat n * second →
    (n ≤ fuel)%nat →
    ∃ k, (k ≤ n)%nat ∧
         halted req deadline w k (PypiProxy.wait_loop (S fuel) req deadline w).
Proof.
  induction n as [|n IH]; intros fuel w Hsteady Hleft Hfuel.
  - exists 0%nat. split; [lia|].
    rewrite wait_loop_exit by lia. apply (halted_deadline _ _ _ 0%nat). cbn. lia.
  - destruct (decide (now w < deadline)) as [Hearly|Hlate].
    + destruct fuel as [|fuel]; [lia|].
      assert (Hnext : ∃ k, (k ≤ n)%nat ∧
                halted req deadline (poll_world req w) k
                  (PypiProxy.wait_loop (S fuel) req deadline (poll_world req w))).
      { apply IH; [by apply steady_poll| |lia].
        pose proof (poll_advances w Hsteady). lia. }
      rewrite wait_loop_turn by done.
      destruct (outcome (net (os w) (polls w))) as [st|e] eqn:Ho.
      * case_bool_decide as Hst.
        -- exists 1%nat. split; [lia|].
           apply (halted_break _ _ _ 0%nat st); [|done]. by rewrite Nat.add_0_r.
        -- destruct Hnext as (k & Hk & Hh). exists (S k).
           split; [lia|]. by apply halted_shift.
      * destruct (is_URLError e) eqn:He.
        -- destruct Hnext as (k & Hk & Hh). exists (S k).
           split; [lia|]. by apply halted_shift.
        -- exists 1%nat. split; [lia|].
           apply (halted_raise _ _ _ 0%nat e); [|done]. by rewrite Nat.add_0_r.
    + exists 0%nat. split; [lia|].
      rewrite wait_loop_exit by lia. apply (halted_deadline _ _ _ 0%nat). cbn. lia.
Qed.

(** When every request is answered or fails with a [URLError], the loop
    can only halt by returning. *)
Lemma halted_benign (w : World) (k : nat) (r : Outcome unit) :
  benign w → halted req deadline w k r →
  r = Ok tt (Nat.iter k (poll_world req) w).
Proof.
  intros Hb H. inversion H as [k' Hd|j st Ho Hst|j e Ho He]; subst; [done..|].
  specialize (Hb j). rewrite Ho in Hb. cbn in Hb. congruence.
Qed.

(** A loop that returned has seen the deadline pass or a status below
    400 on its last request. *)
Lemma halted_ok (w w' : World) (k : nat) :
  halted req deadline w k (Ok tt w') →
  deadline ≤ now w' ∨
  ∃ j st, k = S j ∧ outcome (net (os w) (polls w + j)) = Response st ∧ st < 400.
Proof.
  intros H. inversion H as [k' Hd|j st Ho Hst|j e Ho He]; subst.
  - by left.
  - right. by exists j, st.
Qed.

(** However the loop ends, even with its fuel spent, it has made some
    number of whole turns. *)
Lemma wait_loop_world (fuel : nat) :
  ∀ w : World,
    ∃ k, (k ≤ fuel)%nat ∧
         world_of (PypiProxy.wait_loop fuel req deadline w)
         = Nat.iter k (poll_world req) w.
Proof.
  induction fuel as [|fuel IH]; intros w.
  - exists 0%nat. done.
  - destruct (decide (now w < deadline)) as [Hearly|Hlate].
    + rewrite wait_loop_turn by done.
      destruct (IH (poll_world req w)) as (k & Hk & Hw).
      destruct (outcome (net (os w) (polls w))) as [st|e].
      * case_bool_decide.
        -- exists 1%nat. split; [lia|done].
        -- exists (S k). split; [lia|]. by rewrite Nat.iter_succ_r.
      * destruct (is_URLError e).
        -- exists (S k). split; [lia|]. by rewrite Nat.iter_succ_r.
        -- exists 1%nat. split; [lia|done].
    + rewrite wait_loop_exit by lia. exists 0%nat. split; [lia|done].
Qed.

End LoopRuns.

(** For a url with a scheme, [wait] is its loop, run on the request for the
    proxy and with the deadline computed from the clock. *)
Lemma wait_unfold (fuel : nat) (port : Z) (test_url ty : string) (budget : Z)
    (w : World) :
  url_type test_url = Some ty →
  PypiProxy.wait fuel port test_url budget w
  = PypiProxy.wait_loop fuel (probe port test_url) (now w + budget * second) w.
Proof.
  intros Hty. unfold PypiProxy.wait, bind at 1, time_time, bind at 1, Request_new.
  by rewrite Hty.
Qed.

(** For a url without a scheme, [wait] raises before its loop. *)
Lemma wait_refuses (fuel : nat) (port : Z) (test_url : string) (budget : Z)
    (w : World) :
  url_type test_url = None →
  PypiProxy.wait fuel port test_url budget w
  = Raise (ValueError ("unknown url type: " +:+ request_full_url test_url)) w.
Proof.
  intros Hty. unfold PypiProxy.wait, bind at 1, time_time, bind at 1, Request_new.
  by rewrite Hty.
Qed.

(** The url the constructor polls has the scheme [http]. *)
Lemma wait_unfold_pypi (fuel : nat) (port : Z) (budget : Z) (w : World) :
  PypiProxy.wait fuel port "http://pypi.org" budget w
  = PypiProxy.wait_loop fuel (probe port "http://pypi.org") (now w + budget * second) w.
Proof. by apply (wait_unfold fuel port "http://pypi.org" "http"). Qed.

(** ** Text *)

Lemma string_app_assoc (a b c : string) : (a +:+ b) +:+ c = a +:+ b +:+ c.
Proof.
  induction a as [|x a IH]; [reflexivity|].
  change (String x ((a +:+ b) +:+ c) = String x (a +:+ b +:+ c)). by rewrite IH.
Qed.

Lemma string_app_empty_l (a : string) : "" +:+ a = a.
Proof. reflexivity. Qed.

(** ** Starting the child *)

Lemma launched_frame (executable : string) (args : list string)
    (env : gmap string string) (port : Z) (w : World) :
  let w' := launched executable args env port w in
  os w' = os w ∧ now w' = now w ∧ files w' = files w ∧
  polls w' = polls w ∧ sleeps w' = sleeps w ∧
  procs w' = procs w ++ [child executable port args env] ∧
  trace w' = trace w ++ [EvBind port; EvCloseSocket; EvSpawn (length (procs w))].
Proof. cbn. rewrite <- !app_assoc. done. Qed.

Lemma steady_launched executable args env port w :
  steady w → steady (launched executable args env port w).
Proof. intros H i. apply (H i). Qed.

Lemma benign_launched executable args env port w :
  benign w → benign (launched executable args env port w).
Proof. intros H i. apply (H i). Qed.

(** With a port to be had and a command line that starts, the constructor
    gets to its polling in the world [launched]. *)
Lemma init_launch (fuel : nat) (executable : string) (args : list string)
    (env : gmap string string) (w : World) (port : Z) (rest : list Z) :
  ephemeral w = port :: rest →
  spawn_error (os w) (command_line executable port args) env = None →
  PypiProxy.__init__ fuel executable args env w
  = (PypiProxy.wait fuel port "http://pypi.org" 10 ;;
     finish env port (length (procs w)))
      (launched executable args env port w).
Proof.
  intros Hport Hspawn.
  unfold PypiProxy.__init__, PypiProxy.find_free_port.
  unfold bind at 1 2 3. unfold socket_bind_any. rewrite Hport.
  unfold bind at 1. unfold socket_close, modify, ret at 1.
  unfold Popen. cbn [os log set_ephemeral].
  fold (command_line executable port args). rewrite Hspawn.
  unfold launched. rewrite Hport. reflexivity.
Qed.

(** ** Merging the certificates *)

Lemma bundle_without_home (env : gmap string string) (path : string) (w : World) :
  env !! "HOME" = None →
  PypiProxy.generate_ca_bundle env path w = Raise (KeyError "HOME") w.
Proof.
  intros Hhome. unfold PypiProxy.generate_ca_bundle, bind, dict_get.
  by rewrite Hhome.
Qed.

Lemma bundle_without_proxy_ca (env : gmap string string) (home path : string)
    (w : World) :
  env !! "HOME" = Some home →
  files w !! realpath (os w) (proxy_ca_file home) = None →
  PypiProxy.generate_ca_bundle env path w
  = Raise (FileNotFoundError (proxy_ca_file home)) w.
Proof.
  intros Hhome Hca. unfold PypiProxy.generate_ca_bundle, bind at 1, dict_get.
  rewrite Hhome. unfold ret at 1, bind at 1, read_text at 1.
  fold (proxy_ca_file home). by rewrite Hca.
Qed.

(** The world after a successful [generate_ca_bundle]: one file holds the
    two texts with a newline between them, whatever it held before. *)
Lemma bundle_written (env : gmap string string) (home path a b : string)
    (w : World) :
  env !! "HOME" = Some home →
  files w !! realpath (os w) (proxy_ca_file home) = Some a →
  files w !! realpath (os w) (certifi_where (os w)) = Some b →
  open_w_error (os w) (realpath (os w) (bundle_file home path)) = None →
  ∃ w', PypiProxy.generate_ca_bundle env path w = Ok (bundle_path home path) w' ∧
        files w' = <[realpath (os w) (bundle_file home path) := a +:+ newline +:+ b]> (files w) ∧
        os w' = os w ∧ now w' = now w ∧ procs w' = procs w ∧
        trace w' = trace w ++ bundle_events (os w) home path a b.
Proof.
  intros Hhome Hca Hsys Hopen.
  unfold PypiProxy.generate_ca_bundle, bind at 1, dict_get.
  rewrite Hhome. unfold ret at 1, bind at 1, read_text at 1.
  fold (proxy_ca_file home). rewrite Hca.
  unfold bind at 1, get, bind at 1, read_text. cbn [os files log].
  rewrite Hsys. unfold bind at 1, open_w. cbn [os files log].
  fold (bundle_path home path). fold (bundle_file home path). rewrite Hopen.
  eexists. split; [reflexivity|].
  cbn [write bind ret files os now procs trace log set_files].
  rewrite !lookup_insert_eq. cbn [default]. rewrite !insert_insert_eq.
  rewrite <- !app_assoc. unfold id. rewrite string_app_empty_l, string_app_assoc. done.
Qed.

(** ** From the start of the child to the end of the polling *)

Lemma polled_frame (executable : string) (args : list string)
    (env : gmap string string) (port : Z) (k : nat) (w : World) :
  let w' := polled executable args env port k w in
  os w' = os w ∧ files w' = files w ∧
  procs w' = procs w ++ [child executable port args env] ∧
  trace w' = trace w
             ++ [EvBind port; EvCloseSocket; EvSpawn (length (procs w))]
             ++ mjoin (replicate k (poll_events (probe port "http://pypi.org"))).
Proof.
  cbn zeta. unfold polled.
  destruct (polls_frame (probe port "http://pypi.org") k
              (launched executable args env port w)) as (-> & -> & _ & -> & _).
  rewrite polls_trace.
  destruct (launched_frame executable args env port w) as (-> & _ & -> & _ & _ & -> & ->).
  by rewrite <- app_assoc.
Qed.

(** The clock after [k] turns. *)
Lemma polls_clock (req : Request) (k : nat) :
  ∀ w : World,
    now (Nat.iter k (poll_world req) w)
    = now w + turns_take (os w) (polls w) (sleeps w) k.
Proof.
  induction k as [|k IH]; intros w.
  - cbn. lia.
  - rewrite Nat.iter_succ_r, IH, poll_clock.
    destruct (poll_frame req w) as (-> & _ & _ & _ & -> & -> & _).
    cbn [turns_take]. lia.
Qed.

(** With a port, a child that starts, a steady clock and requests that are
    answered or refused, the constructor gets to [generate_ca_bundle] after
    at most ten turns of the loop. *)
Lemma init_polls (fuel : nat) (executable : string) (args : list string)
    (env : gmap string string) (w : World) (port : Z) (rest : list Z) :
  ephemeral w = port :: rest →
  spawn_error (os w) (command_line executable port args) env = None →
  steady w → benign w → (10 ≤ fuel)%nat →
  ∃ k, (k ≤ 10)%nat ∧
       PypiProxy.wait (S fuel) port "http://pypi.org" 10
         (launched executable args env port w)
       = Ok tt (polled executable args env port k w) ∧
       (now w + 10 * second ≤ now (polled executable args env port k w) ∨
        ∃ j st, k = S j ∧ outcome (net (os w) (polls w + j)) = Response st ∧ st < 400) ∧
       PypiProxy.__init__ (S fuel) executable args env w
       = finish env port (length (procs w)) (polled executable args env port k w).
Proof.
  intros Hport Hspawn Hsteady Hbenign Hfuel.
  rewrite (init_launch _ _ _ _ _ _ _ Hport Hspawn).
  set (w2 := launched executable args env port w).
  destruct (wait_loop_halts (probe port "http://pypi.org") (now w2 + 10 * second)
              10 fuel w2) as (k & Hk & Hhalt).
  { by apply steady_launched. }
  { lia. }
  { done. }
  pose proof Hhalt as Hok.
  apply halted_benign in Hok; [|by apply benign_launched].
  rewrite Hok in Hhalt. apply halted_ok in Hhalt.
  exists k. split; [done|].
  unfold bind at 1. rewrite wait_unfold_pypi, Hok. done.
Qed.

(** [generate_ca_bundle] touches neither the child nor the clock, however
    it ends. *)
Lemma bundle_frame (env : gmap string string) (path : string) (w : World) :
  let w' := world_of (PypiProxy.generate_ca_bundle env path w) in
  os w' = os w ∧ now w' = now w ∧ procs w' = procs w ∧
  polls w' = polls w ∧ sleeps w' = sleeps w.
Proof.
  cbn zeta. remember (PypiProxy.generate_ca_bundle env path w) as r eqn:Hr.
  unfold PypiProxy.generate_ca_bundle, bind at 1, dict_get in Hr.
  destruct (env !! "HOME") as [home|]; [|by subst r].
  unfold ret at 1, bind at 1, read_text at 1 in Hr.
  destruct (files w !! _) as [a|]; [|by subst r].
  unfold bind at 1, get, bind at 1, read_text in Hr. cbn [os files log] in Hr.
  destruct (files w !! _) as [b|]; [|by subst r].
  unfold bind at 1, open_w in Hr. cbn [os files log] in Hr.
  destruct (open_w_error _ _); by subst r.
Qed.

(** ** Killing the child *)

(** The first call of [kill] returns, and says what it did. *)
Lemma kill_once (self : PypiProxy.t) (w : World) :
  ∃ w1, PypiProxy.kill self w = Ok tt w1 ∧
        trace w1 = trace w ++ kill_events self w ∧
        kill_events self w1 = [] ∧
        length (procs w1) = length (procs w).
Proof.
  unfold PypiProxy.kill, Popen_kill, kill_events, bind, Popen_poll.
  destruct self as [env port pid cafile]. cbn [PypiProxy.proc].
  destruct (procs w !! pid) as [p|] eqn:Hp.
  - pose proof (lookup_lt_Some _ _ _ Hp) as Hlt.
    destruct p as [av pe so se st rc]. unfold signallable.
    cbn [returncode pstate]. destruct rc as [c|].
    + eexists. split; [reflexivity|]. rewrite Hp, app_nil_r. done.
    + destruct st as [|c|].
      * unfold try_except, os_kill. rewrite Hp. cbn [pstate].
        eexists. split; [reflexivity|]. cbn [trace procs log set_procs].
        rewrite list_lookup_insert_eq by done. rewrite length_insert. done.
      * eexists. split; [reflexivity|]. cbn [trace procs set_procs].
        rewrite list_lookup_insert_eq by done. rewrite length_insert, app_nil_r. done.
      * eexists. split; [reflexivity|]. cbn [trace procs set_procs].
        rewrite list_lookup_insert_eq by done. rewrite length_insert, app_nil_r. done.
  - unfold try_except, os_kill, ret. rewrite Hp. cbn [is_ProcessLookupError].
    eexists. split; [reflexivity|]. rewrite Hp, app_nil_r. done.
Qed.

(** ** Paths *)

Lemma is_absolute_parse (s : string) :
  Path.is_absolute (Path.parse s) = starts_with "/" s.
Proof.
  unfold Path.parse, Path.splitroot.
  destruct (starts_with "/" s); cbn [negb]; [|reflexivity].
  destruct (negb (starts_with "//" s) || starts_with "///" s); reflexivity.
Qed.

Lemma is_absolute_join (p q : Path.t) :
  Path.is_absolute (Path.join p q) = Path.is_absolute p || Path.is_absolute q.
Proof.
  unfold Path.join, Path.is_absolute.
  destruct (decide (Path.root q = "")) as [Hq|Hq].
  - rewrite !(bool_decide_eq_true_2 _ Hq). cbn [Path.root negb].
    by rewrite orb_false_r.
  - rewrite !(bool_decide_eq_false_2 _ Hq). cbn [negb].
    by rewrite orb_true_r.
Qed.

(** ** The example worlds *)

Lemma steady_system (w : World) : os w = Demo.system → steady w.
Proof.
  intros Hos i. rewrite Hos. cbn [net jitter Demo.system].
  unfold Demo.answers_third. case_bool_decide; cbn; lia.
Qed.

Lemma benign_system (w : World) : os w = Demo.system → benign w.
Proof.
  intros Hos i. rewrite Hos. cbn [net Demo.system].
  unfold Demo.answers_third. case_bool_decide; cbn; done.
Qed.

Lemma steady_deaf_system (w : World) : os w = Demo.deaf_system → steady w.
Proof. intros Hos i. rewrite Hos. cbn. lia. Qed.

Lemma benign_deaf_system (w : World) : os w = Demo.deaf_system → benign w.
Proof. intros Hos i. rewrite Hos. cbn. done. Qed.

(** * The claims *)

(** C1.  When the home directory is known, both certificates can be read
    and the output can be opened, [generate_ca_bundle] leaves the output
    file holding exactly the proxy's CA certificate, one newline and the
    system bundle, in that order.  The file is set to that text whatever it
    held before, and no other file changes. *)
Theorem bundle_is_proxy_ca_newline_system_ca
    (env : gmap string string) (home path a b : string) (w : World) :
  env !! "HOME" = Some home →
  files w !! realpath (os w) (proxy_ca_file home) = Some a →
  files w !! realpath (os w) (certifi_where (os w)) = Some b →
  open_w_error (os w) (realpath (os w) (bundle_file home path)) = None →
  ∃ w', PypiProxy.generate_ca_bundle env path w = Ok (bundle_path home path) w' ∧
        files w' !! realpath (os w') (bundle_file home path)
        = Some (a +:+ newline +:+ b) ∧
        files w'
        = <[realpath (os w) (bundle_file home path) := a +:+ newline +:+ b]> (files w).
Proof.
  intros Hhome Hca Hsys Hopen.
  destruct (bundle_written env home path a b w Hhome Hca Hsys Hopen)
    as (w' & Hrun & Hfiles & Hos & _).
  exists w'. split; [done|]. split; [|done].
  rewrite Hfiles, Hos. apply lookup_insert_eq.
Qed.

(** In the example build the stale bundle of an earlier run is replaced. *)
Lemma bundle_is_proxy_ca_newline_system_ca_witness :
  files Demo.world !! "/build/.ca-cert.pem" = Some "STALE BUNDLE OF AN EARLIER RUN" ∧
  ∃ w', PypiProxy.generate_ca_bundle Demo.env ".ca-cert.pem" Demo.world
        = Ok (bundle_path "/build" ".ca-cert.pem") w' ∧
        files w' !! realpath (os w') (bundle_file "/build" ".ca-cert.pem")
        = Some ("MITM" +:+ newline +:+ "CERTIFI") ∧
        files w'
        = <[realpath (os Demo.world) (bundle_file "/build" ".ca-cert.pem")
            := "MITM" +:+ newline +:+ "CERTIFI"]> (files Demo.world).
Proof.
  split; [vm_compute; reflexivity|].
  apply (bundle_is_proxy_ca_newline_system_ca
           Demo.env "/build" ".ca-cert.pem" "MITM" "CERTIFI" Demo.world);
    vm_compute; reflexivity.
Defined.

(** C2.  When the proxy's CA certificate is missing from
    [<home>/.mitmproxy/mitmproxy-ca-cert.pem], a constructor that got as far
    as merging the certificates raises [FileNotFoundError] for that path.
    No file has changed, and nothing but the socket, the child and the
    polling is on the trace: the output was never opened. *)
Theorem init_fails_without_proxy_ca
    (fuel : nat) (executable : string) (args : list string)
    (env : gmap string string) (home : string) (w : World)
    (port : Z) (rest : list Z) :
  ephemeral w = port :: rest →
  spawn_error (os w) (command_line executable port args) env = None →
  steady w → benign w → (10 ≤ fuel)%nat →
  env !! "HOME" = Some home →
  files w !! realpath (os w) (proxy_ca_file home) = None →
  ∃ k w', (k ≤ 10)%nat ∧
          PypiProxy.__init__ (S fuel) executable args env w
          = Raise (FileNotFoundError (proxy_ca_file home)) w' ∧
          is_FileNotFoundError (FileNotFoundError (proxy_ca_file home)) = true ∧
          files w' = files w ∧
          trace w' = trace w
                     ++ [EvBind port; EvCloseSocket; EvSpawn (length (procs w))]
                     ++ mjoin (replicate k (poll_events (probe port "http://pypi.org"))).
Proof.
  intros Hport Hspawn Hsteady Hbenign Hfuel Hhome Hca.
  destruct (init_polls fuel executable args env w port rest)
    as (k & Hk & _ & _ & Hrun); [done..|].
  destruct (polled_frame executable args env port k w) as (Hos & Hfiles & _ & Htrace).
  exists k, (polled executable args env port k w).
  split; [done|]. split; [|done].
  rewrite Hrun. unfold finish, bind at 1.
  rewrite (bundle_without_proxy_ca env home); [done..|].
  by rewrite Hos, Hfiles.
Qed.

(** In the example build before the proxy's first run. *)
Lemma init_fails_without_proxy_ca_witness :
  ∃ k w', (k ≤ 10)%nat ∧
          PypiProxy.__init__ 11 "mitmdump" Demo.args Demo.env Demo.fresh_world
          = Raise (FileNotFoundError (proxy_ca_file "/build")) w' ∧
          is_FileNotFoundError (FileNotFoundError (proxy_ca_file "/build")) = true ∧
          files w' = files Demo.fresh_world ∧
          trace w' = trace Demo.fresh_world
                     ++ [EvBind 40123; EvCloseSocket;
                         EvSpawn (length (procs Demo.fresh_world))]
                     ++ mjoin (replicate k (poll_events (probe 40123 "http://pypi.org"))).
Proof.
  apply (init_fails_without_proxy_ca 10 "mitmdump" Demo.args Demo.env "/build"
           Demo.fresh_world 40123 []).
  - reflexivity.
  - reflexivity.
  - apply steady_system. reflexivity.
  - apply benign_system. reflexivity.
  - lia.
  - vm_compute. reflexivity.
  - vm_compute. reflexivity.
Defined.

(** C3.  The polling never makes the constructor fail.  Let every request
    be answered (with any status) or fail with a [URLError], be it on the
    first turn, the tenth, or on all of them, and let the clock move by a
    second a turn.  Then, with a port, a child that starts and certificates
    that can be merged, the constructor returns an instance, after at most
    ten turns of the loop. *)
Theorem init_returns_whenever_requests_are_answered_or_refused
    (fuel : nat) (executable : string) (args : list string)
    (env : gmap string string) (home a b : string) (w : World)
    (port : Z) (rest : list Z) :
  ephemeral w = port :: rest →
  spawn_error (os w) (command_line executable port args) env = None →
  steady w → benign w → (10 ≤ fuel)%nat →
  env !! "HOME" = Some home →
  files w !! realpath (os w) (proxy_ca_file home) = Some a →
  files w !! realpath (os w) (certifi_where (os w)) = Some b →
  open_w_error (os w) (realpath (os w) (bundle_file home ".ca-cert.pem")) = None →
  ∃ k w2 self w',
    (k ≤ 10)%nat ∧
    PypiProxy.wait (S fuel) port "http://pypi.org" 10
      (launched executable args env port w) = Ok tt w2 ∧
    polls w2 = (polls w + k)%nat ∧
    PypiProxy.__init__ (S fuel) executable args env w = Ok self w'.
Proof.
  intros Hport Hspawn Hsteady Hbenign Hfuel Hhome Hca Hsys Hopen.
  destruct (init_polls fuel executable args env w port rest)
    as (k & Hk & Hwait & _ & Hrun); [done..|].
  destruct (polled_frame executable args env port k w) as (Hos & Hfiles & _).
  destruct (bundle_written env home ".ca-cert.pem" a b
              (polled executable args env port k w)) as (w' & Hgen & _).
  { done. }
  { by rewrite Hos, Hfiles. }
  { by rewrite Hos, Hfiles. }
  { by rewrite Hos. }
  exists k, (polled executable args env port k w),
    (PypiProxy.mk env port (length (procs w)) (bundle_path home ".ca-cert.pem")), w'.
  split; [done|]. split; [done|]. split.
  - unfold polled.
    destruct (polls_frame (probe port "http://pypi.org") k
                (launched executable args env port w)) as (_ & _ & _ & _ & -> & _).
    reflexivity.
  - rewrite Hrun. unfold finish, bind at 1. by rewrite Hgen.
Qed.

(** In the example build the proxy answers the third request. *)
Lemma init_returns_whenever_requests_are_answered_or_refused_witness :
  ∃ k w2 self w',
    (k ≤ 10)%nat ∧
    PypiProxy.wait 11 40123 "http://pypi.org" 10
      (launched "mitmdump" Demo.args Demo.env 40123 Demo.world) = Ok tt w2 ∧
    polls w2 = (polls Demo.world + k)%nat ∧
    PypiProxy.__init__ 11 "mitmdump" Demo.args Demo.env Demo.world = Ok self w'.
Proof.
  apply (init_returns_whenever_requests_are_answered_or_refused
           10 "mitmdump" Demo.args Demo.env "/build" "MITM" "CERTIFI"
           Demo.world 40123 []).
  - reflexivity.
  - reflexivity.
  - apply steady_system. reflexivity.
  - apply benign_system. reflexivity.
  - lia.
  - vm_compute. reflexivity.
  - vm_compute. reflexivity.
  - vm_compute. reflexivity.
  - reflexivity.
Defined.

(** The reach of C3: an exception that is no [URLError] is not caught.  A
    proxy that accepts the connection and never answers makes [urlopen]
    raise [TimeoutError] while it reads, and the constructor with it, one
    sleep later. *)
Lemma init_lets_other_exceptions_through :
  ∃ w', PypiProxy.__init__ 11 "mitmdump" Demo.args Demo.env Demo.mute_world
        = Raise TimeoutError w' ∧
        now w' = now Demo.mute_world + 6 * second ∧
        sleeps w' = 1%nat.
Proof. eexists. split; [vm_compute; reflexivity|]. split; reflexivity. Qed.

(** C3 as stated fails: not every behaviour of the endpoint lets the
    constructor return.  In a build with a port, a child that starts, a
    steady clock and all it takes to merge the certificates, a proxy that
    accepts the connection and never answers makes the constructor raise
    [TimeoutError]. *)
Lemma init_raises_when_the_proxy_never_answers :
  ephemeral Demo.mute_world = [40123] ∧
  spawn_error (os Demo.mute_world) (command_line "mitmdump" 40123 Demo.args) Demo.env
  = None ∧
  steady Demo.mute_world ∧
  Demo.env !! "HOME" = Some "/build" ∧
  files Demo.mute_world !! realpath (os Demo.mute_world) (proxy_ca_file "/build")
  = Some "MITM" ∧
  files Demo.mute_world
    !! realpath (os Demo.mute_world) (certifi_where (os Demo.mute_world))
  = Some "CERTIFI" ∧
  open_w_error (os Demo.mute_world)
    (realpath (os Demo.mute_world) (bundle_file "/build" ".ca-cert.pem")) = None ∧
  (∀ (fuel : nat) (self : PypiProxy.t) (w' : World),
     PypiProxy.__init__ fuel "mitmdump" Demo.args Demo.env Demo.mute_world ≠ Ok self w') ∧
  ∃ w', PypiProxy.__init__ 11 "mitmdump" Demo.args Demo.env Demo.mute_world
        = Raise TimeoutError w'.
Proof.
  split; [reflexivity|]. split; [reflexivity|].
  split; [intros i; vm_compute; discriminate|].
  split; [vm_compute; reflexivity|]. split; [vm_compute; reflexivity|].
  split; [vm_compute; reflexivity|]. split; [reflexivity|]. split.
  - intros fuel self w'.
    rewrite (init_launch fuel "mitmdump" Demo.args Demo.env Demo.mute_world 40123 [])
      by reflexivity.
    unfold bind at 1. rewrite wait_unfold_pypi. destruct fuel as [|fuel]; [done|].
    rewrite wait_loop_turn by (vm_compute; reflexivity). done.
  - eexists. vm_compute. reflexivity.
Qed.

(** ** What the constructor leaves of the child *)

(** Whatever becomes of the constructor after it has started the child, the
    table of processes is the old one with the child added. *)
Lemma init_procs (fuel : nat) (executable : string) (args : list string)
    (env : gmap string string) (w : World) (port : Z) (rest : list Z) :
  ephemeral w = port :: rest →
  spawn_error (os w) (command_line executable port args) env = None →
  procs (world_of (PypiProxy.__init__ fuel executable args env w))
  = procs w ++ [child executable port args env].
Proof.
  intros Hport Hspawn. rewrite (init_launch _ _ _ _ _ _ _ Hport Hspawn).
  unfold bind at 1. rewrite wait_unfold_pypi.
  set (w2 := launched executable args env port w).
  destruct (wait_loop_world (probe port "http://pypi.org") (now w2 + 10 * second)
              fuel w2) as (k & _ & Hw).
  assert (Hprocs : procs (Nat.iter k (poll_world (probe port "http://pypi.org")) w2)
                   = procs w ++ [child executable port args env]).
  { destruct (polls_frame (probe port "http://pypi.org") k w2) as (_&_&_& -> &_).
    subst w2.
    by destruct (launched_frame executable args env port w) as (_&_&_&_&_& -> &_). }
  destruct (PypiProxy.wait_loop fuel _ _ w2) as [[] w3|e w3|w3];
    cbn [world_of] in Hw; subst w3; [|done..].
  unfold finish, bind at 1.
  destruct (bundle_frame env ".ca-cert.pem"
              (Nat.iter k (poll_world (probe port "http://pypi.org")) w2))
    as (_ & _ & Hp & _).
  destruct (PypiProxy.generate_ca_bundle env ".ca-cert.pem" _) as [c w4|e w4|w4];
    cbn [world_of] in Hp; unfold ret; cbn [world_of]; by rewrite Hp.
Qed.

(** The instance the constructor returns has the port the kernel gave and
    the child just started. *)
Lemma init_handle (fuel : nat) (executable : string) (args : list string)
    (env : gmap string string) (w : World) (port : Z) (rest : list Z)
    (self : PypiProxy.t) (w' : World) :
  ephemeral w = port :: rest →
  spawn_error (os w) (command_line executable port args) env = None →
  PypiProxy.__init__ fuel executable args env w = Ok self w' →
  PypiProxy.env self = env ∧ PypiProxy.port self = port ∧
  PypiProxy.proc self = length (procs w).
Proof.
  intros Hport Hspawn. rewrite (init_launch _ _ _ _ _ _ _ Hport Hspawn).
  unfold bind at 1.
  destruct (PypiProxy.wait fuel port "http://pypi.org" 10 _) as [[] w3|e w3|w3];
    [|done..].
  unfold finish, bind at 1.
  destruct (PypiProxy.generate_ca_bundle env ".ca-cert.pem" w3) as [c w4|e w4|w4];
    [|done..].
  unfold ret. intros [= <- <-]. done.
Qed.

(** C4.  Once the kernel has given a port and the command line starts, the
    child the constructor leaves in the table of processes was started with
    the executable, [--listen-port], the port in decimal, [--anticache] and
    then the caller's arguments in their order, in the caller's environment
    and with both output streams on the standard error stream; this holds
    however the constructor ends.  An instance that is returned records
    that port and that child. *)
Theorem init_command_line
    (fuel : nat) (executable : string) (args : list string)
    (env : gmap string string) (w : World) (port : Z) (rest : list Z) :
  ephemeral w = port :: rest →
  spawn_error (os w) (command_line executable port args) env = None →
  procs (world_of (PypiProxy.__init__ fuel executable args env w)) !! length (procs w)
  = Some (mkProcess ([executable; "--listen-port"; str port; "--anticache"] ++ args)
            env StdErr StdErr Running None) ∧
  ∀ (self : PypiProxy.t) (w' : World),
    PypiProxy.__init__ fuel executable args env w = Ok self w' →
    PypiProxy.port self = port ∧
    ∃ p, procs w' !! PypiProxy.proc self = Some p ∧
         argv p = [executable; "--listen-port"; str (PypiProxy.port self); "--anticache"]
                  ++ args.
Proof.
  intros Hport Hspawn.
  pose proof (init_procs fuel executable args env w port rest Hport Hspawn) as Hprocs.
  split.
  - rewrite Hprocs. by apply list_lookup_middle.
  - intros self w' Hrun.
    destruct (init_handle fuel executable args env w port rest self w' Hport Hspawn Hrun)
      as (_ & Hp & Hpid).
    split; [done|]. rewrite Hrun in Hprocs. cbn [world_of] in Hprocs.
    exists (child executable port args env). split.
    + rewrite Hprocs, Hpid. by apply list_lookup_middle.
    + by rewrite Hp.
Qed.

(** In the example build: [mitmdump --listen-port 40123 --anticache --ignore-hosts
    files.pythonhosted.org]. *)
Lemma init_command_line_witness :
  procs (world_of (PypiProxy.__init__ 11 "mitmdump" Demo.args Demo.env Demo.world))
    !! length (procs Demo.world)
  = Some (mkProcess
            (["mitmdump"; "--listen-port"; str 40123; "--anticache"] ++ Demo.args)
            Demo.env StdErr StdErr Running None) ∧
  ∀ (self : PypiProxy.t) (w' : World),
    PypiProxy.__init__ 11 "mitmdump" Demo.args Demo.env Demo.world = Ok self w' →
    PypiProxy.port self = 40123 ∧
    ∃ p, procs w' !! PypiProxy.proc self = Some p ∧
         argv p = ["mitmdump"; "--listen-port"; str (PypiProxy.port self); "--anticache"]
                  ++ Demo.args.
Proof.
  apply (init_command_line 11 "mitmdump" Demo.args Demo.env Demo.world 40123 []);
    reflexivity.
Defined.




(** The clock matters.  Were it set back by a second during every sleep,
    the loop would never see its deadline: no amount of fuel is enough. *)
Lemma wait_loop_spins_on_a_stuck_clock (req : Request) (deadline : Z) (fuel : nat) :
  ∀ w : World,
    os w = Demo.stuck_system → now w < deadline →
    ∃ w', PypiProxy.wait_loop fuel req deadline w = OutOfFuel w'.
Proof.
  induction fuel as [|fuel IH]; intros w Hos Hearly.
  - by exists w.
  - rewrite wait_loop_turn by done. rewrite Hos. cbn [net outcome Demo.stuck_system
      Demo.never_answers Demo.refused is_URLError].
    apply IH.
    + by destruct (poll_frame req w) as (-> & _).
    + rewrite poll_clock, Hos. cbn. lia.
Qed.

(** C6.  Whichever way the polling ends, with a request answered with a
    status below 400 or with the budget used up and nothing answered, the
    constructor goes on to merge the certificates: in the world the polling
    left it reads both of them and writes the bundle, and the instance it
    returns has as [cafile] the path of that bundle, [.ca-cert.pem] in the
    home directory, which then holds the proxy's certificate, a newline and
    the system bundle. *)
Theorem init_generates_bundle_after_polling
    (fuel : nat) (executable : string) (args : list string)
    (env : gmap string string) (home a b : string) (w : World)
    (port : Z) (rest : list Z) :
  ephemeral w = port :: rest →
  spawn_error (os w) (command_line executable port args) env = None →
  steady w → benign w → (10 ≤ fuel)%nat →
  env !! "HOME" = Some home →
  files w !! realpath (os w) (proxy_ca_file home) = Some a →
  files w !! realpath (os w) (certifi_where (os w)) = Some b →
  open_w_error (os w) (realpath (os w) (bundle_file home ".ca-cert.pem")) = None →
  ∃ k self w',
    (k ≤ 10)%nat ∧
    let w2 := polled executable args env port k w in
    PypiProxy.wait (S fuel) port "http://pypi.org" 10
      (launched executable args env port w) = Ok tt w2 ∧
    (now w + 10 * second ≤ now w2 ∨
     ∃ j st, k = S j ∧ outcome (net (os w) (polls w + j)) = Response st ∧ st < 400) ∧
    PypiProxy.__init__ (S fuel) executable args env w = Ok self w' ∧
    PypiProxy.cafile self = Path.div (Path.parse home) ".ca-cert.pem" ∧
    files w' !! realpath (os w') (Path.to_string (PypiProxy.cafile self))
    = Some (a +:+ newline +:+ b) ∧
    trace w'
    = trace w2
      ++ [EvRead (proxy_ca_file home); EvRead (certifi_where (os w));
          EvTruncate (Path.to_string (PypiProxy.cafile self));
          EvWrite (realpath (os w) (Path.to_string (PypiProxy.cafile self))) a;
          EvWrite (realpath (os w) (Path.to_string (PypiProxy.cafile self))) newline;
          EvWrite (realpath (os w) (Path.to_string (PypiProxy.cafile self))) b].
Proof.
  intros Hport Hspawn Hsteady Hbenign Hfuel Hhome Hca Hsys Hopen.
  destruct (init_polls fuel executable args env w port rest)
    as (k & Hk & Hwait & Hwhy & Hrun); [done..|].
  destruct (polled_frame executable args env port k w) as (Hos & Hfiles & _).
  destruct (bundle_written env home ".ca-cert.pem" a b
              (polled executable args env port k w))
    as (w' & Hgen & Hfiles' & Hos' & _ & _ & Htrace').
  { done. }
  { by rewrite Hos, Hfiles. }
  { by rewrite Hos, Hfiles. }
  { by rewrite Hos. }
  exists k, (PypiProxy.mk env port (length (procs w)) (bundle_path home ".ca-cert.pem")), w'.
  cbn zeta. cbn [PypiProxy.cafile].
  split; [done|]. split; [done|]. split; [done|]. split.
  { rewrite Hrun. unfold finish, bind at 1. by rewrite Hgen. }
  split; [done|]. split.
  - rewrite Hfiles', Hos'. apply lookup_insert_eq.
  - rewrite Htrace', Hos. reflexivity.
Qed.

(** In the example build whose proxy never comes up the bundle is written
    all the same. *)
Lemma init_generates_bundle_after_polling_witness :
  ∃ k self w',
    (k ≤ 10)%nat ∧
    let w2 := polled "mitmdump" Demo.args Demo.env 40123 k Demo.deaf_world in
    PypiProxy.wait 11 40123 "http://pypi.org" 10
      (launched "mitmdump" Demo.args Demo.env 40123 Demo.deaf_world) = Ok tt w2 ∧
    (now Demo.deaf_world + 10 * second ≤ now w2 ∨
     ∃ j st, k = S j ∧
             outcome (net (os Demo.deaf_world) (polls Demo.deaf_world + j))
             = Response st ∧ st < 400) ∧
    PypiProxy.__init__ 11 "mitmdump" Demo.args Demo.env Demo.deaf_world = Ok self w' ∧
    PypiProxy.cafile self = Path.div (Path.parse "/build") ".ca-cert.pem" ∧
    files w' !! realpath (os w') (Path.to_string (PypiProxy.cafile self))
    = Some ("MITM" +:+ newline +:+ "CERTIFI") ∧
    trace w'
    = trace w2
      ++ [EvRead (proxy_ca_file "/build"); EvRead (certifi_where (os Demo.deaf_world));
          EvTruncate (Path.to_string (PypiProxy.cafile self));
          EvWrite (realpath (os Demo.deaf_world) (Path.to_string (PypiProxy.cafile self)))
            "MITM";
          EvWrite (realpath (os Demo.deaf_world) (Path.to_string (PypiProxy.cafile self)))
            newline;
          EvWrite (realpath (os Demo.deaf_world) (Path.to_string (PypiProxy.cafile self)))
            "CERTIFI"].
Proof.
  apply (init_generates_bundle_after_polling 10 "mitmdump" Demo.args Demo.env
           "/build" "MITM" "CERTIFI" Demo.deaf_world 40123 []).
  - reflexivity.
  - reflexivity.
  - apply steady_deaf_system. reflexivity.
  - apply benign_deaf_system. reflexivity.
  - lia.
  - vm_compute. reflexivity.
  - vm_compute. reflexivity.
  - vm_compute. reflexivity.
  - reflexivity.
Defined.

(** A child that can be signalled is killed and left unwaited for. *)
Lemma kill_running (self : PypiProxy.t) (w : World) (p : Process) :
  procs w !! PypiProxy.proc self = Some p →
  signallable p = true →
  PypiProxy.kill self w
  = Ok tt (log (EvSignal (PypiProxy.proc self) SIGKILL)
             (set_procs (<[PypiProxy.proc self := with_pstate (Zombie (-9)) p]> (procs w)) w)).
Proof.
  intros Hp Hs. unfold PypiProxy.kill, Popen_kill, bind, Popen_poll. rewrite Hp.
  unfold signallable in Hs.
  destruct (returncode p); [done|]. destruct (pstate p) eqn:Hst; [|done..].
  unfold try_except, os_kill. by rewrite Hp, Hst.
Qed.

(** C7.  [kill] never raises, whatever the state of the child: a first
    call returns and so does a second one made right after it.  The first
    call sends [SIGKILL] to a child not yet known to have exited and does
    nothing else; it does not wait, so a child that was running is left as
    a zombie with no return code collected.  The second call sends
    nothing. *)
Theorem kill_never_raises (self : PypiProxy.t) (w : World) :
  ∃ w1 w2,
    PypiProxy.kill self w = Ok tt w1 ∧
    PypiProxy.kill self w1 = Ok tt w2 ∧
    trace w1 = trace w ++ kill_events self w ∧
    trace w2 = trace w1 ∧
    ∀ p, procs w !! PypiProxy.proc self = Some p → signallable p = true →
         trace w1 = trace w ++ [EvSignal (PypiProxy.proc self) SIGKILL] ∧
         procs w1 !! PypiProxy.proc self
         = Some (mkProcess (argv p) (penv p) (p_stdout p) (p_stderr p) (Zombie (-9)) None).
Proof.
  destruct (kill_once self w) as (w1 & Hk1 & Ht1 & Hquiet & _).
  destruct (kill_once self w1) as (w2 & Hk2 & Ht2 & _).
  exists w1, w2. split; [done|]. split; [done|]. split; [done|]. split.
  - by rewrite Ht2, Hquiet, app_nil_r.
  - intros p Hp Hs. rewrite (kill_running self w p Hp Hs) in Hk1.
    injection Hk1 as <-. cbn [trace procs log set_procs]. split; [done|].
    rewrite list_lookup_insert_eq by (by apply lookup_lt_Some in Hp).
    unfold signallable in Hs. unfold with_pstate.
    destruct (returncode p); [done|reflexivity].
Qed.

(** In the example build, on the child just started. *)
Lemma kill_never_raises_witness :
  ∃ w1 w2,
    PypiProxy.kill Demo.handle
      (launched "mitmdump" Demo.args Demo.env 40123 Demo.world) = Ok tt w1 ∧
    PypiProxy.kill Demo.handle w1 = Ok tt w2 ∧
    trace w1 = [EvBind 40123; EvCloseSocket; EvSpawn 0; EvSignal 0 SIGKILL] ∧
    trace w2 = trace w1.
Proof.
  destruct (kill_never_raises Demo.handle
              (launched "mitmdump" Demo.args Demo.env 40123 Demo.world))
    as (w1 & w2 & Hk1 & Hk2 & Ht1 & Ht2 & _).
  exists w1, w2. split; [exact Hk1|]. split; [exact Hk2|]. split; [exact Ht1|exact Ht2].
Defined.

(** C8 as stated fails: with a home directory given
    relative to the working directory, the path returned for a relative
    output name is relative too. *)
Lemma bundle_path_of_relative_home_is_relative :
  ¬ (∀ (env : gmap string string) (path : string) (w : World)
       (p : Path.t) (w' : World),
        Path.is_absolute (Path.parse path) = false →
        PypiProxy.generate_ca_bundle env path w = Ok p w' →
        Path.is_absolute p = true).
Proof.
  intros H.
  specialize (H Demo.relative_env ".ca-cert.pem" Demo.relative_world
                (Path.mk "" ["build"; ".ca-cert.pem"])
                (world_of (PypiProxy.generate_ca_bundle Demo.relative_env
                             ".ca-cert.pem" Demo.relative_world))).
  assert (Hrel : Path.is_absolute (Path.mk "" ["build"; ".ca-cert.pem"]) = false)
    by reflexivity.
  rewrite H in Hrel; [discriminate|reflexivity|].
  vm_compute. reflexivity.
Qed.

(** C8, amended.  [generate_ca_bundle] returns the path it wrote to, which
    is the home directory joined with the output name.  Nothing makes it
    absolute: it is absolute exactly when the home directory or the output
    name begins with a slash. *)
Theorem bundle_path_is_home_joined_with_name
    (env : gmap string string) (home path a b : string) (w : World) :
  env !! "HOME" = Some home →
  files w !! realpath (os w) (proxy_ca_file home) = Some a →
  files w !! realpath (os w) (certifi_where (os w)) = Some b →
  open_w_error (os w) (realpath (os w) (bundle_file home path)) = None →
  ∃ p w', PypiProxy.generate_ca_bundle env path w = Ok p w' ∧
          p = Path.div (Path.parse home) path ∧
          files w' !! realpath (os w') (Path.to_string p)
          = Some (a +:+ newline +:+ b) ∧
          Path.is_absolute p = starts_with "/" home || starts_with "/" path.
Proof.
  intros Hhome Hca Hsys Hopen.
  destruct (bundle_written env home path a b w Hhome Hca Hsys Hopen)
    as (w' & Hrun & Hfiles & Hos & _).
  exists (bundle_path home path), w'. split; [done|]. split; [done|]. split.
  - rewrite Hfiles, Hos. apply lookup_insert_eq.
  - unfold bundle_path, Path.div.
    by rewrite is_absolute_join, !is_absolute_parse.
Qed.

(** In the example build the home directory is [/build] and the path is
    absolute. *)
Lemma bundle_path_is_home_joined_with_name_witness :
  ∃ p w', PypiProxy.generate_ca_bundle Demo.env ".ca-cert.pem" Demo.world = Ok p w' ∧
          p = Path.div (Path.parse "/build") ".ca-cert.pem" ∧
          files w' !! realpath (os w') (Path.to_string p)
          = Some ("MITM" +:+ newline +:+ "CERTIFI") ∧
          Path.is_absolute p = starts_with "/" "/build" || starts_with "/" ".ca-cert.pem".
Proof.
  apply (bundle_path_is_home_joined_with_name
           Demo.env "/build" ".ca-cert.pem" "MITM" "CERTIFI" Demo.world);
    vm_compute; reflexivity.
Defined.

(** A request answered with a status below 400 ends the loop, but only
    after the sleep of that turn. *)
Lemma wait_loop_break (fuel : nat) (req : Request) (deadline : Z) (w : World) (st : Z) :
  now w < deadline →
  outcome (net (os w) (polls w)) = Response st →
  st < 400 →
  PypiProxy.wait_loop (S fuel) req deadline w
  = Ok tt (after_sleep 1 (after_urlopen req 5 w)).
Proof.
  intros Hearly Ho Hst. rewrite wait_loop_turn by done. rewrite Ho.
  by rewrite bool_decide_eq_true_2.
Qed.

(** C9.  In the loop of [wait] the one-second sleep follows every request,
    the last one too.  However the loop ends (a [break], the deadline, an
    exception, or the fuel spent at a test of the condition) it has made as
    many sleeps as requests, each request directly followed by its sleep,
    and the clock has moved by all of them.  In particular a request
    answered with a status below 400 ends the loop only after the sleep of
    its turn: the world [wait] returns is the one after that sleep. *)
Theorem wait_sleeps_after_every_request
    (fuel : nat) (req : Request) (deadline : Z) (w : World) :
  (∃ k, (k ≤ fuel)%nat ∧
        let w' := world_of (PypiProxy.wait_loop fuel req deadline w) in
        polls w' = (polls w + k)%nat ∧
        sleeps w' = (sleeps w + k)%nat ∧
        trace w' = trace w ++ mjoin (replicate k [EvUrlopen req 5; EvSleep 1]) ∧
        now w' = now w + turns_take (os w) (polls w) (sleeps w) k) ∧
  (∀ st, now w < deadline →
         outcome (net (os w) (polls w)) = Response st →
         st < 400 →
         ∃ w', PypiProxy.wait_loop (S fuel) req deadline w = Ok tt w' ∧
               sleeps w' = S (sleeps w) ∧
               trace w' = trace w ++ [EvUrlopen req 5; EvSleep 1] ∧
               now w' = now w + took (net (os w) (polls w))
                        + 1 * second + jitter (os w) (sleeps w)).
Proof.
  split.
  - destruct (wait_loop_world req deadline fuel w) as (k & Hk & ->).
    exists k. split; [done|]. cbn zeta.
    destruct (polls_frame req k w) as (_&_&_&_& -> & -> ).
    by rewrite polls_trace, polls_clock.
  - intros st Hearly Ho Hst. eexists.
    split; [by apply (wait_loop_break fuel req deadline w st)|].
    cbn. rewrite <- app_assoc. done.
Qed.

(** In the example build whose proxy is up at once: one request, one sleep. *)
Lemma wait_sleeps_after_every_request_witness :
  ∃ w', PypiProxy.wait_loop 1 (probe 40123 "http://pypi.org")
          (now Demo.eager_world + 10 * second) Demo.eager_world = Ok tt w' ∧
        sleeps w' = 1%nat ∧
        trace w' = [EvUrlopen (probe 40123 "http://pypi.org") 5; EvSleep 1] ∧
        now w' = now Demo.eager_world + 1000000 + 1 * second + 0.
Proof.
  apply (proj2 (wait_sleeps_after_every_request 0 (probe 40123 "http://pypi.org")
                  (now Demo.eager_world + 10 * second) Demo.eager_world) 200).
  - vm_compute. reflexivity.
  - reflexivity.
  - vm_compute. reflexivity.
Defined.

(** C10.  Without [HOME] in the environment, a constructor that got as far
    as merging the certificates raises [KeyError] for [HOME] there.  By then
    the child has been started and the polling has run, for at least one
    request and its sleep; the child is in the table of processes, running
    and with nothing sent to it, no file has changed, and no instance is
    returned to kill it with. *)
Theorem init_without_home_leaves_child_running
    (fuel : nat) (executable : string) (args : list string)
    (env : gmap string string) (w : World) (port : Z) (rest : list Z) :
  ephemeral w = port :: rest →
  spawn_error (os w) (command_line executable port args) env = None →
  steady w → benign w → (10 ≤ fuel)%nat →
  env !! "HOME" = None →
  ∃ k w', (1 ≤ k ≤ 10)%nat ∧
          PypiProxy.__init__ (S fuel) executable args env w = Raise (KeyError "HOME") w' ∧
          procs w'
          = procs w
            ++ [mkProcess ([executable; "--listen-port"; str port; "--anticache"] ++ args)
                  env StdErr StdErr Running None] ∧
          polls w' = (polls w + k)%nat ∧ sleeps w' = (sleeps w + k)%nat ∧
          files w' = files w ∧
          trace w' = trace w
                     ++ [EvBind port; EvCloseSocket; EvSpawn (length (procs w))]
                     ++ mjoin (replicate k [EvUrlopen (probe port "http://pypi.org") 5;
                                            EvSleep 1]).
Proof.
  intros Hport Hspawn Hsteady Hbenign Hfuel Hhome.
  destruct (init_polls fuel executable args env w port rest)
    as (k & Hk & _ & Hwhy & Hrun); [done..|].
  destruct (polled_frame executable args env port k w) as (_ & Hfiles & Hprocs & Htrace).
  assert (Hturn : (1 ≤ k)%nat).
  { destruct Hwhy as [Hlate|(j & st & -> & _)]; [|lia].
    destruct k as [|k]; [|lia]. cbn in Hlate. unfold second in Hlate. lia. }
  exists k, (polled executable args env port k w).
  split; [lia|]. split.
  { rewrite Hrun. unfold finish, bind at 1.
    by rewrite (bundle_without_home env ".ca-cert.pem" _ Hhome). }
  split; [done|]. unfold polled at 1 2.
  destruct (polls_frame (probe port "http://pypi.org") k
              (launched executable args env port w)) as (_&_&_&_& -> & -> ).
  done.
Qed.

(** In the example build, with an environment that has only [PATH]. *)
Lemma init_without_home_leaves_child_running_witness :
  ∃ k w', (1 ≤ k ≤ 10)%nat ∧
          PypiProxy.__init__ 11 "mitmdump" Demo.args Demo.homeless_env Demo.world
          = Raise (KeyError "HOME") w' ∧
          procs w'
          = procs Demo.world
            ++ [mkProcess (["mitmdump"; "--listen-port"; str 40123; "--anticache"]
                           ++ Demo.args)
                  Demo.homeless_env StdErr StdErr Running None] ∧
          polls w' = (polls Demo.world + k)%nat ∧
          sleeps w' = (sleeps Demo.world + k)%nat ∧
          files w' = files Demo.world ∧
          trace w' = trace Demo.world
                     ++ [EvBind 40123; EvCloseSocket; EvSpawn (length (procs Demo.world))]
                     ++ mjoin (replicate k [EvUrlopen (probe 40123 "http://pypi.org") 5;
                                            EvSleep 1]).
Proof.
  apply (init_without_home_leaves_child_running 10 "mitmdump" Demo.args
           Demo.homeless_env Demo.world 40123 []).
  - reflexivity.
  - reflexivity.
  - apply steady_system. reflexivity.
  - apply benign_system. reflexivity.
  - lia.
  - vm_compute. reflexivity.
Defined.

(** * Further properties of the code *)

(** ** More on [wait] *)

(** Every turn the loop makes starts before the deadline, however the loop
    ends. *)
Lemma wait_loop_turns_start_early (req : Request) (deadline : Z) (fuel : nat) :
  ∀ w : World,
    ∃ k, (k ≤ fuel)%nat ∧
         world_of (PypiProxy.wait_loop fuel req deadline w)
         = Nat.iter k (poll_world req) w ∧
         ∀ j, (j < k)%nat → now (Nat.iter j (poll_world req) w) < deadline.
Proof.
  induction fuel as [|fuel IH]; intros w.
  - exists 0%nat. split; [done|]. split; [done|]. intros j Hj. lia.
  - destruct (decide (now w < deadline)) as [Hearly|Hlate].
    + rewrite wait_loop_turn by done.
      destruct (IH (poll_world req w)) as (k & Hk & Hw & Hturns).
      assert (Hone : ∀ j, (j < 1)%nat → now (Nat.iter j (poll_world req) w) < deadline).
      { intros j Hj. by replace j with 0%nat by lia. }
      assert (Hmore : ∀ j, (j < S k)%nat →
                           now (Nat.iter j (poll_world req) w) < deadline).
      { intros [|j] Hj; [done|]. rewrite Nat.iter_succ_r. apply Hturns. lia. }
      destruct (outcome (net (os w) (polls w))) as [st|e].
      * case_bool_decide.
        -- exists 1%nat. split; [lia|]. by split.
        -- exists (S k). split; [lia|]. split; [by rewrite Nat.iter_succ_r|done].
      * destruct (is_URLError e).
        -- exists (S k). split; [lia|]. split; [by rewrite Nat.iter_succ_r|done].
        -- exists 1%nat. split; [lia|]. by split.
    + rewrite wait_loop_exit by lia. exists 0%nat.
      split; [lia|]. split; [done|]. intros j Hj. lia.
Qed.





(** X5.  [wait] makes no request once its deadline has passed: however it
    ends, every turn it has made started while the clock was still short of
    the deadline.  It therefore overruns its budget by less than one turn. *)
Theorem wait_makes_no_request_after_the_deadline
    (fuel : nat) (port : Z) (test_url : string) (budget : Z) (w : World) :
  ∃ k, (k ≤ fuel)%nat ∧
       world_of (PypiProxy.wait fuel port test_url budget w)
       = Nat.iter k (poll_world (probe port test_url)) w ∧
       ∀ j, (j < k)%nat →
            now (Nat.iter j (poll_world (probe port test_url)) w)
            < now w + budget * second.
Proof.
  destruct (url_type test_url) as [ty|] eqn:Hty.
  - rewrite (wait_unfold _ _ _ _ _ _ Hty). apply wait_loop_turns_start_early.
  - rewrite (wait_refuses _ _ _ _ _ Hty). exists 0%nat.
    split; [lia|]. split; [done|]. intros j Hj. lia.
Qed.



(** X7.  [wait] only watches: however it ends, it has changed no file, no
    entry of the table of processes and no port of the kernel.  All it
    leaves behind is time passed and the trace of its requests and sleeps. *)
Theorem wait_changes_no_file_and_no_process
    (fuel : nat) (port : Z) (test_url : string) (budget : Z) (w : World) :
  let w' := world_of (PypiProxy.wait fuel port test_url budget w) in
  files w' = files w ∧ procs w' = procs w ∧ ephemeral w' = ephemeral w ∧ os w' = os w.
Proof.
  cbn zeta. destruct (url_type test_url) as [ty|] eqn:Hty.
  - rewrite (wait_unfold _ _ _ _ _ _ Hty).
    destruct (wait_loop_world (probe port test_url) (now w + budget * second) fuel w)
      as (k & _ & ->).
    by destruct (polls_frame (probe port test_url) k w) as (-> & -> & -> & -> & _).
  - by rewrite (wait_refuses _ _ _ _ _ Hty).
Qed.

(** X15.  A url without a scheme never reaches the loop: [Request] refuses
    it with [ValueError], and [wait] raises that before any request or
    sleep, in the world it was called in, whatever the budget. *)
Theorem wait_refuses_a_url_without_scheme
    (fuel : nat) (port : Z) (test_url : string) (budget : Z) (w : World) :
  url_type test_url = None →
  ∃ msg, PypiProxy.wait fuel port test_url budget w = Raise (ValueError msg) w.
Proof.
  intros Hty. eexists.
  unfold PypiProxy.wait, bind at 1, time_time, bind at 1, Request_new.
  by rewrite Hty.
Qed.

Lemma wait_refuses_a_url_without_scheme_witness :
  ∃ msg, PypiProxy.wait 11 40123 "pypi.org" 10 Demo.eager_world
         = Raise (ValueError msg) Demo.eager_world.
Proof.
  apply (wait_refuses_a_url_without_scheme 11 40123 "pypi.org" 10 Demo.eager_world).
  reflexivity.
Defined.

(** ** More on the constructor *)

(** X1.  When the kernel has no port to give, the constructor raises the
    error of the bind and has done nothing: no child is started and the
    world is the one it was called in. *)
Theorem init_without_a_port_starts_nothing
    (fuel : nat) (executable : string) (args : list string)
    (env : gmap string string) (w : World) :
  ephemeral w = [] →
  ∃ msg, PypiProxy.__init__ fuel executable args env w = Raise (OSError msg) w.
Proof.
  intros Hnone. eexists.
  unfold PypiProxy.__init__, PypiProxy.find_free_port.
  unfold bind at 1 2. unfold socket_bind_any. by rewrite Hnone.
Qed.

Lemma init_without_a_port_starts_nothing_witness :
  ∃ msg, PypiProxy.__init__ 11 "mitmdump" Demo.args Demo.env Demo.exhausted_world
         = Raise (OSError msg) Demo.exhausted_world.
Proof.
  apply (init_without_a_port_starts_nothing 11 "mitmdump" Demo.args Demo.env
           Demo.exhausted_world).
  reflexivity.
Defined.

(** X2.  When the child cannot be started, the constructor raises the error
    of [Popen].  The port has been taken and its socket closed, but there is
    no child, no request was made and no file has changed. *)
Theorem init_raises_when_the_child_cannot_start
    (fuel : nat) (executable : string) (args : list string)
    (env : gmap string string) (w : World) (port : Z) (rest : list Z) (e : exn) :
  ephemeral w = port :: rest →
  spawn_error (os w) ([executable; "--listen-port"; str port; "--anticache"] ++ args) env
  = Some e →
  ∃ w', PypiProxy.__init__ fuel executable args env w = Raise e w' ∧
        procs w' = procs w ∧ files w' = files w ∧ polls w' = polls w ∧
        ephemeral w' = rest ∧
        trace w' = trace w ++ [EvBind port; EvCloseSocket].
Proof.
  intros Hport Hspawn. eexists. split.
  - unfold PypiProxy.__init__, PypiProxy.find_free_port.
    unfold bind at 1 2 3. unfold socket_bind_any. rewrite Hport.
    unfold bind at 1. unfold socket_close, modify, ret at 1.
    unfold Popen. cbn [os log set_ephemeral]. rewrite Hspawn. reflexivity.
  - cbn. by rewrite <- app_assoc.
Qed.

Lemma init_raises_when_the_child_cannot_start_witness :
  ∃ w', PypiProxy.__init__ 11 "mitmdump" Demo.args Demo.env Demo.no_binary_world
        = Raise (FileNotFoundError "mitmdump") w' ∧
        procs w' = procs Demo.no_binary_world ∧ files w' = files Demo.no_binary_world ∧
        polls w' = polls Demo.no_binary_world ∧
        ephemeral w' = [] ∧
        trace w' = trace Demo.no_binary_world ++ [EvBind 40123; EvCloseSocket].
Proof.
  apply (init_raises_when_the_child_cannot_start 11 "mitmdump" Demo.args Demo.env
           Demo.no_binary_world 40123 [] (FileNotFoundError "mitmdump"));
    reflexivity.
Defined.

(** X8.  An exception of [urlopen] that is no [URLError] ends the
    constructor.  When the first request raises it, the constructor raises
    it too, after the one-second sleep of that turn; the child is left
    running in the table of processes and no certificate is merged. *)
Theorem init_raises_what_the_except_clause_misses
    (fuel : nat) (executable : string) (args : list string)
    (env : gmap string string) (w : World) (port : Z) (rest : list Z) (e : exn) :
  ephemeral w = port :: rest →
  spawn_error (os w) (command_line executable port args) env = None →
  outcome (net (os w) (polls w)) = Raises e →
  is_URLError e = false →
  ∃ w', PypiProxy.__init__ (S fuel) executable args env w = Raise e w' ∧
        procs w' = procs w ++ [child executable port args env] ∧
        files w' = files w ∧
        polls w' = S (polls w) ∧ sleeps w' = S (sleeps w) ∧
        now w' = now w + took (net (os w) (polls w)) + 1 * second
                 + jitter (os w) (sleeps w).
Proof.
  intros Hport Hspawn Ho He.
  rewrite (init_launch _ _ _ _ _ _ _ Hport Hspawn).
  unfold bind at 1. rewrite wait_unfold_pypi.
  rewrite wait_loop_turn by (cbn [now launched log set_procs set_ephemeral];
                             unfold second; lia).
  replace (outcome (net (os (launched executable args env port w))
                      (polls (launched executable args env port w))))
    with (Raises e) by (symmetry; exact Ho).
  rewrite He. eexists. split; [reflexivity|]. done.
Qed.

Lemma init_raises_what_the_except_clause_misses_witness :
  ∃ w', PypiProxy.__init__ 11 "mitmdump" Demo.args Demo.env Demo.mute_world
        = Raise TimeoutError w' ∧
        procs w' = procs Demo.mute_world
                   ++ [child "mitmdump" 40123 Demo.args Demo.env] ∧
        files w' = files Demo.mute_world ∧
        polls w' = S (polls Demo.mute_world) ∧ sleeps w' = S (sleeps Demo.mute_world) ∧
        now w' = now Demo.mute_world
                 + took (net (os Demo.mute_world) (polls Demo.mute_world)) + 1 * second
                 + jitter (os Demo.mute_world) (sleeps Demo.mute_world).
Proof.
  apply (init_raises_what_the_except_clause_misses 10 "mitmdump" Demo.args Demo.env
           Demo.mute_world 40123 [] TimeoutError); reflexivity.
Defined.

(** ** More on [generate_ca_bundle] *)

(** X9.  When the output cannot be opened for writing, [generate_ca_bundle]
    raises the error of [open] after it has read both certificates; no file
    has changed, the one it could not open included. *)
Theorem bundle_raises_when_the_output_cannot_be_opened
    (env : gmap string string) (home path a b : string) (w : World) (e : exn) :
  env !! "HOME" = Some home →
  files w !! realpath (os w) (proxy_ca_file home) = Some a →
  files w !! realpath (os w) (certifi_where (os w)) = Some b →
  open_w_error (os w) (realpath (os w) (bundle_file home path)) = Some e →
  ∃ w', PypiProxy.generate_ca_bundle env path w = Raise e w' ∧
        files w' = files w ∧
        trace w' = trace w ++ [EvRead (proxy_ca_file home); EvRead (certifi_where (os w))].
Proof.
  intros Hhome Hca Hsys Hopen.
  unfold PypiProxy.generate_ca_bundle, bind at 1, dict_get.
  rewrite Hhome. unfold ret at 1, bind at 1, read_text at 1.
  fold (proxy_ca_file home). rewrite Hca.
  unfold bind at 1, get, bind at 1, read_text. cbn [os files log].
  rewrite Hsys. unfold bind at 1, open_w. cbn [os files log].
  fold (bundle_path home path). fold (bundle_file home path). rewrite Hopen.
  eexists. split; [reflexivity|]. cbn. by rewrite <- app_assoc.
Qed.

Lemma bundle_raises_when_the_output_cannot_be_opened_witness :
  ∃ w', PypiProxy.generate_ca_bundle Demo.env ".ca-cert.pem" Demo.readonly_world
        = Raise (PermissionError "/build/.ca-cert.pem") w' ∧
        files w' = files Demo.readonly_world ∧
        trace w' = trace Demo.readonly_world
                   ++ [EvRead (proxy_ca_file "/build");
                       EvRead (certifi_where (os Demo.readonly_world))].
Proof.
  apply (bundle_raises_when_the_output_cannot_be_opened Demo.env "/build" ".ca-cert.pem"
           "MITM" "CERTIFI" Demo.readonly_world (PermissionError "/build/.ca-cert.pem"));
    vm_compute; reflexivity.
Defined.

(** X10.  When the bundle of [certifi] is missing, [generate_ca_bundle]
    raises [FileNotFoundError] for the path [certifi.where()] gave, after it
    has read the proxy's certificate; no file has changed and the output was
    not opened. *)
Theorem bundle_raises_without_the_system_bundle
    (env : gmap string string) (home path a : string) (w : World) :
  env !! "HOME" = Some home →
  files w !! realpath (os w) (proxy_ca_file home) = Some a →
  files w !! realpath (os w) (certifi_where (os w)) = None →
  ∃ w', PypiProxy.generate_ca_bundle env path w
        = Raise (FileNotFoundError (certifi_where (os w))) w' ∧
        files w' = files w ∧
        trace w' = trace w ++ [EvRead (proxy_ca_file home)].
Proof.
  intros Hhome Hca Hsys.
  unfold PypiProxy.generate_ca_bundle, bind at 1, dict_get.
  rewrite Hhome. unfold ret at 1, bind at 1, read_text at 1.
  fold (proxy_ca_file home). rewrite Hca.
  unfold bind at 1, get, bind at 1, read_text. cbn [os files log].
  rewrite Hsys. eexists. split; [reflexivity|]. done.
Qed.

Lemma bundle_raises_without_the_system_bundle_witness :
  ∃ w', PypiProxy.generate_ca_bundle Demo.env ".ca-cert.pem" Demo.bare_world
        = Raise (FileNotFoundError (certifi_where (os Demo.bare_world))) w' ∧
        files w' = files Demo.bare_world ∧
        trace w' = trace Demo.bare_world ++ [EvRead (proxy_ca_file "/build")].
Proof.
  apply (bundle_raises_without_the_system_bundle Demo.env "/build" ".ca-cert.pem"
           "MITM" Demo.bare_world); vm_compute; reflexivity.
Defined.

(** X11.  Merging twice is merging once.  When the output is neither of the
    two files read, [generate_ca_bundle] leaves both of them as they were,
    and a second call returns the same path and leaves every file as the
    first call left it. *)
Theorem bundle_twice_is_bundle_once
    (env : gmap string string) (home path a b : string) (w : World) :
  env !! "HOME" = Some home →
  files w !! realpath (os w) (proxy_ca_file home) = Some a →
  files w !! realpath (os w) (certifi_where (os w)) = Some b →
  open_w_error (os w) (realpath (os w) (bundle_file home path)) = None →
  realpath (os w) (bundle_file home path) ≠ realpath (os w) (proxy_ca_file home) →
  realpath (os w) (bundle_file home path) ≠ realpath (os w) (certifi_where (os w)) →
  ∃ p w1 w2,
    PypiProxy.generate_ca_bundle env path w = Ok p w1 ∧
    files w1 !! realpath (os w) (proxy_ca_file home) = Some a ∧
    files w1 !! realpath (os w) (certifi_where (os w)) = Some b ∧
    PypiProxy.generate_ca_bundle env path w1 = Ok p w2 ∧
    files w2 = files w1.
Proof.
  intros Hhome Hca Hsys Hopen Hne1 Hne2.
  destruct (bundle_written env home path a b w Hhome Hca Hsys Hopen)
    as (w1 & Hrun1 & Hfiles1 & Hos1 & _).
  assert (Hca1 : files w1 !! realpath (os w1) (proxy_ca_file home) = Some a).
  { rewrite Hfiles1, Hos1. by rewrite lookup_insert_ne. }
  assert (Hsys1 : files w1 !! realpath (os w1) (certifi_where (os w1)) = Some b).
  { rewrite Hfiles1, Hos1. by rewrite lookup_insert_ne. }
  destruct (bundle_written env home path a b w1 Hhome Hca1 Hsys1)
    as (w2 & Hrun2 & Hfiles2 & _); [by rewrite Hos1|].
  exists (bundle_path home path), w1, w2.
  rewrite Hos1 in Hca1, Hsys1, Hfiles2.
  split; [done|]. split; [done|]. split; [done|]. split; [done|].
  by rewrite Hfiles2, Hfiles1, insert_insert_eq.
Qed.

Lemma bundle_twice_is_bundle_once_witness :
  ∃ p w1 w2,
    PypiProxy.generate_ca_bundle Demo.env ".ca-cert.pem" Demo.world = Ok p w1 ∧
    files w1 !! realpath (os Demo.world) (proxy_ca_file "/build") = Some "MITM" ∧
    files w1 !! realpath (os Demo.world) (certifi_where (os Demo.world))
    = Some "CERTIFI" ∧
    PypiProxy.generate_ca_bundle Demo.env ".ca-cert.pem" w1 = Ok p w2 ∧
    files w2 = files w1.
Proof.
  apply (bundle_twice_is_bundle_once Demo.env "/build" ".ca-cert.pem"
           "MITM" "CERTIFI" Demo.world); vm_compute; (reflexivity || discriminate).
Defined.

(** ** The instance and its child *)

(** The bundle of the constructor lies directly in the home directory. *)
Lemma bundle_path_in_home (home : string) :
  bundle_path home ".ca-cert.pem"
  = Path.mk (Path.root (Path.parse home)) (Path.parts (Path.parse home) ++ [".ca-cert.pem"]).
Proof. reflexivity. Qed.

(** The constructor that succeeds, in full. *)
Lemma init_succeeds (fuel : nat) (executable : string) (args : list string)
    (env : gmap string string) (home a b : string) (w : World)
    (port : Z) (rest : list Z) :
  ephemeral w = port :: rest →
  spawn_error (os w) (command_line executable port args) env = None →
  steady w → benign w → (10 ≤ fuel)%nat →
  env !! "HOME" = Some home →
  files w !! realpath (os w) (proxy_ca_file home) = Some a →
  files w !! realpath (os w) (certifi_where (os w)) = Some b →
  open_w_error (os w) (realpath (os w) (bundle_file home ".ca-cert.pem")) = None →
  ∃ k w',
    (k ≤ 10)%nat ∧
    PypiProxy.__init__ (S fuel) executable args env w
    = Ok (PypiProxy.mk env port (length (procs w)) (bundle_path home ".ca-cert.pem")) w' ∧
    os w' = os w ∧
    files w'
    = <[realpath (os w) (bundle_file home ".ca-cert.pem") := a +:+ newline +:+ b]> (files w) ∧
    procs w' = procs w ++ [child executable port args env] ∧
    trace w' = trace w
               ++ [EvBind port; EvCloseSocket; EvSpawn (length (procs w))]
               ++ mjoin (replicate k (poll_events (probe port "http://pypi.org")))
               ++ bundle_events (os w) home ".ca-cert.pem" a b.
Proof.
  intros Hport Hspawn Hsteady Hbenign Hfuel Hhome Hca Hsys Hopen.
  destruct (init_polls fuel executable args env w port rest)
    as (k & Hk & _ & _ & Hrun); [done..|].
  destruct (polled_frame executable args env port k w)
    as (Hos & Hfiles & Hprocs & Htrace).
  destruct (bundle_written env home ".ca-cert.pem" a b
              (polled executable args env port k w))
    as (w' & Hgen & Hfiles' & Hos' & _ & Hprocs' & Htrace').
  { done. }
  { by rewrite Hos, Hfiles. }
  { by rewrite Hos, Hfiles. }
  { by rewrite Hos. }
  exists k, w'. split; [done|]. split.
  - rewrite Hrun. unfold finish, bind at 1. by rewrite Hgen.
  - rewrite Hos', Hfiles', Hprocs', Htrace', Hos, Hfiles, Hprocs, Htrace.
    by rewrite <- !app_assoc.
Qed.

(** [kill] changes the entry of its own child and nothing else. *)
Lemma kill_frame (self : PypiProxy.t) (w : World) :
  ∃ w1, PypiProxy.kill self w = Ok tt w1 ∧
        os w1 = os w ∧ now w1 = now w ∧ files w1 = files w ∧
        ephemeral w1 = ephemeral w ∧ polls w1 = polls w ∧ sleeps w1 = sleeps w ∧
        length (procs w1) = length (procs w) ∧
        ∀ pid, pid ≠ PypiProxy.proc self → procs w1 !! pid = procs w !! pid.
Proof.
  unfold PypiProxy.kill, Popen_kill, bind, Popen_poll.
  destruct self as [env port pid cafile]. cbn [PypiProxy.proc].
  destruct (procs w !! pid) as [p|] eqn:Hp.
  - destruct (returncode p) as [c|].
    + eexists. split; [reflexivity|]. done.
    + destruct (pstate p) eqn:Hst.
      * unfold try_except, os_kill. rewrite Hp, Hst.
        eexists. split; [reflexivity|]. cbn. rewrite length_insert.
        repeat (split; [done|]). intros q Hq. by rewrite list_lookup_insert_ne.
      * eexists. split; [reflexivity|]. cbn. rewrite length_insert.
        repeat (split; [done|]). intros q Hq. by rewrite list_lookup_insert_ne.
      * eexists. split; [reflexivity|]. cbn. rewrite length_insert.
        repeat (split; [done|]). intros q Hq. by rewrite list_lookup_insert_ne.
  - unfold try_except, os_kill, ret. rewrite Hp. cbn [is_ProcessLookupError].
    eexists. split; [reflexivity|]. done.
Qed.

(** X12.  What a successful constructor leaves.  The instance holds the
    caller's environment, the port of the bind, the child just started and,
    as [cafile], the file [.ca-cert.pem] directly in the home directory;
    that file holds the merged bundle and no other file has changed.  Things
    happened in this order: the port was bound and its socket closed, then
    the child was started, then the polling ran, and only then were the
    certificates read and the bundle written. *)
Theorem init_leaves_instance_child_and_bundle
    (fuel : nat) (executable : string) (args : list string)
    (env : gmap string string) (home a b : string) (w : World)
    (port : Z) (rest : list Z) :
  ephemeral w = port :: rest →
  spawn_error (os w) (command_line executable port args) env = None →
  steady w → benign w → (10 ≤ fuel)%nat →
  env !! "HOME" = Some home →
  files w !! realpath (os w) (proxy_ca_file home) = Some a →
  files w !! realpath (os w) (certifi_where (os w)) = Some b →
  open_w_error (os w) (realpath (os w) (bundle_file home ".ca-cert.pem")) = None →
  ∃ k self w',
    (k ≤ 10)%nat ∧
    PypiProxy.__init__ (S fuel) executable args env w = Ok self w' ∧
    PypiProxy.env self = env ∧ PypiProxy.port self = port ∧
    PypiProxy.cafile self
    = Path.mk (Path.root (Path.parse home))
              (Path.parts (Path.parse home) ++ [".ca-cert.pem"]) ∧
    procs w' !! PypiProxy.proc self
    = Some (mkProcess ([executable; "--listen-port"; str port; "--anticache"] ++ args)
              env StdErr StdErr Running None) ∧
    files w'
    = <[realpath (os w) (Path.to_string (PypiProxy.cafile self))
        := a +:+ newline +:+ b]> (files w) ∧
    trace w'
    = trace w
      ++ [EvBind port; EvCloseSocket; EvSpawn (PypiProxy.proc self)]
      ++ mjoin (replicate k [EvUrlopen (probe port "http://pypi.org") 5; EvSleep 1])
      ++ [EvRead (proxy_ca_file home); EvRead (certifi_where (os w));
          EvTruncate (Path.to_string (PypiProxy.cafile self));
          EvWrite (realpath (os w) (Path.to_string (PypiProxy.cafile self))) a;
          EvWrite (realpath (os w) (Path.to_string (PypiProxy.cafile self))) newline;
          EvWrite (realpath (os w) (Path.to_string (PypiProxy.cafile self))) b].
Proof.
  intros Hport Hspawn Hsteady Hbenign Hfuel Hhome Hca Hsys Hopen.
  destruct (init_succeeds fuel executable args env home a b w port rest)
    as (k & w' & Hk & Hrun & _ & Hfiles & Hprocs & Htrace); [done..|].
  exists k, (PypiProxy.mk env port (length (procs w)) (bundle_path home ".ca-cert.pem")), w'.
  split; [done|]. split; [done|]. cbn [PypiProxy.env PypiProxy.port PypiProxy.proc
                                         PypiProxy.cafile].
  split; [done|]. split; [done|]. split; [apply bundle_path_in_home|].
  split; [|split].
  - rewrite Hprocs. by apply list_lookup_middle.
  - exact Hfiles.
  - exact Htrace.
Qed.

Lemma init_leaves_instance_child_and_bundle_witness :
  ∃ k self w',
    (k ≤ 10)%nat ∧
    PypiProxy.__init__ 11 "mitmdump" Demo.args Demo.env Demo.world = Ok self w' ∧
    PypiProxy.env self = Demo.env ∧ PypiProxy.port self = 40123 ∧
    PypiProxy.cafile self
    = Path.mk (Path.root (Path.parse "/build"))
              (Path.parts (Path.parse "/build") ++ [".ca-cert.pem"]) ∧
    procs w' !! PypiProxy.proc self
    = Some (mkProcess (["mitmdump"; "--listen-port"; str 40123; "--anticache"] ++ Demo.args)
              Demo.env StdErr StdErr Running None) ∧
    files w'
    = <[realpath (os Demo.world) (Path.to_string (PypiProxy.cafile self))
        := "MITM" +:+ newline +:+ "CERTIFI"]> (files Demo.world) ∧
    trace w'
    = trace Demo.world
      ++ [EvBind 40123; EvCloseSocket; EvSpawn (PypiProxy.proc self)]
      ++ mjoin (replicate k [EvUrlopen (probe 40123 "http://pypi.org") 5; EvSleep 1])
      ++ [EvRead (proxy_ca_file "/build"); EvRead (certifi_where (os Demo.world));
          EvTruncate (Path.to_string (PypiProxy.cafile self));
          EvWrite (realpath (os Demo.world) (Path.to_string (PypiProxy.cafile self))) "MITM";
          EvWrite (realpath (os Demo.world) (Path.to_string (PypiProxy.cafile self))) newline;
          EvWrite (realpath (os Demo.world) (Path.to_string (PypiProxy.cafile self)))
            "CERTIFI"].
Proof.
  apply (init_leaves_instance_child_and_bundle 10 "mitmdump" Demo.args Demo.env
           "/build" "MITM" "CERTIFI" Demo.world 40123 []).
  - reflexivity.
  - reflexivity.
  - apply steady_system. reflexivity.
  - apply benign_system. reflexivity.
  - lia.
  - vm_compute. reflexivity.
  - vm_compute. reflexivity.
  - vm_compute. reflexivity.
  - reflexivity.
Defined.

(** X13.  [kill] touches nothing but its own child: it returns with every
    file, the clock, the kernel's ports and every other entry of the table
    of processes as they were, and the table as long as before. *)
Theorem kill_touches_only_its_child (self : PypiProxy.t) (w : World) :
  ∃ w1, PypiProxy.kill self w = Ok tt w1 ∧
        files w1 = files w ∧ now w1 = now w ∧ ephemeral w1 = ephemeral w ∧
        length (procs w1) = length (procs w) ∧
        ∀ pid, pid ≠ PypiProxy.proc self → procs w1 !! pid = procs w !! pid.
Proof.
  destruct (kill_frame self w) as (w1 & Hk & _ & Hnow & Hfiles & Heph & _ & _ & Hlen & Hoth).
  by exists w1.
Qed.

(** X14.  The instance a successful constructor returns kills the child
    that constructor started: [kill] on it sends one [SIGKILL] to that
    child, which is left terminated and not waited for, with the command
    line it was started with; the merged bundle stays as it is. *)
Theorem kill_after_init_ends_the_child
    (fuel : nat) (executable : string) (args : list string)
    (env : gmap string string) (home a b : string) (w : World)
    (port : Z) (rest : list Z) :
  ephemeral w = port :: rest →
  spawn_error (os w) (command_line executable port args) env = None →
  steady w → benign w → (10 ≤ fuel)%nat →
  env !! "HOME" = Some home →
  files w !! realpath (os w) (proxy_ca_file home) = Some a →
  files w !! realpath (os w) (certifi_where (os w)) = Some b →
  open_w_error (os w) (realpath (os w) (bundle_file home ".ca-cert.pem")) = None →
  ∃ self w' w'',
    PypiProxy.__init__ (S fuel) executable args env w = Ok self w' ∧
    PypiProxy.kill self w' = Ok tt w'' ∧
    procs w'' !! PypiProxy.proc self
    = Some (mkProcess ([executable; "--listen-port"; str port; "--anticache"] ++ args)
              env StdErr StdErr (Zombie (-9)) None) ∧
    trace w'' = trace w' ++ [EvSignal (PypiProxy.proc self) SIGKILL] ∧
    files w'' = files w'.
Proof.
  intros Hport Hspawn Hsteady Hbenign Hfuel Hhome Hca Hsys Hopen.
  destruct (init_succeeds fuel executable args env home a b w port rest)
    as (k & w' & Hk & Hrun & _ & _ & Hprocs & _); [done..|].
  set (self := PypiProxy.mk env port (length (procs w)) (bundle_path home ".ca-cert.pem")).
  assert (Hchild : procs w' !! PypiProxy.proc self = Some (child executable port args env)).
  { rewrite Hprocs. by apply list_lookup_middle. }
  eexists self, w', _. split; [exact Hrun|].
  split; [by apply (kill_running self w' _ Hchild)|].
  cbn [procs trace files log set_procs]. split; [|done].
  rewrite list_lookup_insert_eq; [done|]. by apply lookup_lt_Some in Hchild.
Qed.

Lemma kill_after_init_ends_the_child_witness :
  ∃ self w' w'',
    PypiProxy.__init__ 11 "mitmdump" Demo.args Demo.env Demo.world = Ok self w' ∧
    PypiProxy.kill self w' = Ok tt w'' ∧
    procs w'' !! PypiProxy.proc self
    = Some (mkProcess (["mitmdump"; "--listen-port"; str 40123; "--anticache"] ++ Demo.args)
              Demo.env StdErr StdErr (Zombie (-9)) None) ∧
    trace w'' = trace w' ++ [EvSignal (PypiProxy.proc self) SIGKILL] ∧
    files w'' = files w'.
Proof.
  apply (kill_after_init_ends_the_child 10 "mitmdump" Demo.args Demo.env
           "/build" "MITM" "CERTIFI" Demo.world 40123 []).
  - reflexivity.
  - reflexivity.
  - apply steady_system. reflexivity.
  - apply benign_system. reflexivity.
  - lia.
  - vm_compute. reflexivity.
  - vm_compute. reflexivity.
  - vm_compute. reflexivity.
  - reflexivity.
Defined.
